(** * A10x SDK Python example: shallow embedding of [simple_example.py]

    The script is glue around a closed vendor SDK.  Everything it does is a
    sequence of calls into that SDK (and into [clr], [os.path], [time],
    [logging]) with Python control flow around them: early [return]s,
    [try]/[except]/[finally], [raise].

    The embedding keeps that shape.  The outside world is an [oracle] that
    answers every external call with a value or with a raised exception and
    may look at everything that happened so far; the script is a state
    passing computation over the chronological trace of external calls and
    log records. *)

From Stdlib Require Import String Ascii List ZArith Bool Lia.
From Stdlib Require Import DecimalString.
From Stdlib Require DecimalPos DecimalFacts.
Import ListNotations.
Open Scope string_scope.

(** ** Python values and exceptions *)

(** The exception classes that matter to the handlers of the script.
    [KeyboardInterrupt] and [SystemExit] derive from [BaseException] only;
    the others derive from [Exception]. *)
Inductive exn_class : Type :=
| KeyboardInterrupt
| SystemExit
| PlainException
| AttributeError
| FileNotFoundError
| ImportError
| TypeError
| ClrException.

Record exn : Type := mkExn { exn_cls : exn_class; exn_msg : string }.

(** [isinstance(e, Exception)] *)
Definition is_Exception (e : exn) : bool :=
  match exn_cls e with
  | KeyboardInterrupt | SystemExit => false
  | _ => true
  end.

(** [isinstance(e, AttributeError)] *)
Definition is_AttributeError (e : exn) : bool :=
  match exn_cls e with
  | AttributeError => true
  | _ => false
  end.

(** [str(e)], as the f-strings of the handlers render it. *)
Definition exn_str (e : exn) : string := exn_msg e.

(** What the functions of the script return. *)
Inductive pyval : Type :=
| PyNone
| PyBool (b : bool)
| PyStr (s : string).

(** Python truthiness, used by [if success] and [if not sdk_version]. *)
Definition truthy (v : pyval) : bool :=
  match v with
  | PyNone => false
  | PyBool b => b
  | PyStr s => negb (String.eqb s "")
  end.

(** [System.Version]: the three components the script formats. *)
Record Version : Type := mkVersion { Major : Z; Minor : Z; Build : Z }.

(** The record [A10xIdentity.GetDeviceInfo] returns. *)
Record DeviceInfo : Type := mkDeviceInfo { Serial : string; Mac : string }.

(** ** Strings *)

(** [str(int)] in an f-string: decimal, with a leading minus sign. *)
Definition str_of_int (z : Z) : string := NilZero.string_of_int (Z.to_int z).

(** Python's [<] on [str] is lexicographic on code points, a proper prefix
    being smaller.  Strings are held as byte strings here; on UTF-8 the byte
    order and the code point order agree. *)
Fixpoint str_lt (a b : string) : bool :=
  match a, b with
  | EmptyString, EmptyString => false
  | EmptyString, String _ _ => true
  | String _ _, EmptyString => false
  | String x a', String y b' =>
      if (nat_of_ascii x <? nat_of_ascii y)%nat then true
      else if (nat_of_ascii y <? nat_of_ascii x)%nat then false
      else str_lt a' b'
  end.

(** ** External calls, events, traces *)

Inductive log_level : Type := INFO | WARNING | ERROR.

(** Every call that leaves the script, indexed by what it gives back. *)
Inductive call : Type -> Type :=
| PythonnetLoad (runtime : string) : call unit
| ImportClr : call unit
| AddReference (path : string) : call unit
| ImportA10x : call unit
| ImportSystem : call unit
| GetAssembly : call unit
| AssemblyVersion : call Version
| GetAttr (name : string) : call unit
| IdentifyDevice (ip : string) : call bool
| GetDeviceInfo (ip : string) : call DeviceInfo
| NewSDK : call unit
| Connect (ip : string) : call unit
| SetGain (db : Z) : call unit
| SetAscanAveraging (n : Z) : call unit
| SetPulseRepetitionRate (hz : Z) : call unit
| SetQuadro8x4Transmitter (idx : Z) : call unit
| SetSingle8x4Transmitter (idx : Z) : call unit
| Subscribe : call unit
| StartAscanSingleTransmitter : call unit
| Sleep (seconds : Z) : call unit
| StopAcquisition : call unit
| Unsubscribe : call unit
| Disconnect : call unit.

Inductive event : Type :=
| Ext {T : Type} (c : call T)
| Log (lvl : log_level) (msg : string).

Definition trace : Type := list event.

(** How an external call, or a statement, ends. *)
Inductive outcome (A : Type) : Type :=
| Normal (a : A)
| Return (v : pyval)
| Raise (e : exn).
Arguments Normal {A} a.
Arguments Return {A} v.
Arguments Raise {A} e.

(** What a call answers: a value or an exception. *)
Inductive answer (T : Type) : Type :=
| Ok (t : T)
| Throws (e : exn).
Arguments Ok {T} t.
Arguments Throws {T} e.

(** The world: given what happened so far, the answer to the next call. *)
Definition oracle : Type := forall T : Type, trace -> call T -> answer T.

(** ** The statement monad

    A statement runs from a trace to an [outcome] and a longer trace.
    [Normal] falls through to the next statement, [Return] leaves the
    enclosing function, [Raise] unwinds to the nearest handler. *)

Definition M (A : Type) : Type := trace -> outcome A * trace.

Definition ret {A : Type} (a : A) : M A := fun tr => (Normal a, tr).

Definition bind {A B : Type} (m : M A) (k : A -> M B) : M B :=
  fun tr =>
    match m tr with
    | (Normal a, tr') => k a tr'
    | (Return v, tr') => (Return v, tr')
    | (Raise e, tr') => (Raise e, tr')
    end.

Declare Scope py_scope.
Delimit Scope py_scope with py.
Notation "x <- m ;; k" := (bind m (fun x => k))
  (at level 61, m at next level, right associativity) : py_scope.
Notation "m ;; k" := (bind m (fun _ => k))
  (at level 61, right associativity) : py_scope.
Open Scope py_scope.

(** [return v] *)
Definition return_ {A : Type} (v : pyval) : M A := fun tr => (Return v, tr).

(** [raise e] *)
Definition raise {A : Type} (e : exn) : M A := fun tr => (Raise e, tr).

(** [logger.info], [logger.warning], [logger.error]: one record appended.
    Logging does not fail: the [logging] module keeps the errors of its
    handlers to itself, and the messages are built from strings. *)
Definition log (lvl : log_level) (msg : string) : M unit :=
  fun tr => (Normal tt, (tr ++ [Log lvl msg])%list).

(** An external call: the attempt is recorded whether it succeeds or not. *)
Definition ext (world : oracle) {T : Type} (c : call T) : M T :=
  fun tr =>
    match world T tr c with
    | Ok t => (Normal t, (tr ++ [Ext c])%list)
    | Throws e => (Raise e, (tr ++ [Ext c])%list)
    end.

(** [try: body / except <class> as e: handler e] *)
Definition try_except {A : Type} (body : M A) (catches : exn -> bool)
    (handler : exn -> M A) : M A :=
  fun tr =>
    match body tr with
    | (Raise e, tr') => if catches e then handler e tr' else (Raise e, tr')
    | r => r
    end.

(** [try: body / finally: fin].  The cleanup runs on every exit of the body;
    when the cleanup itself returns or raises, that replaces how the body
    ended. *)
Definition try_finally {A : Type} (body : M A) (fin : M unit) : M A :=
  fun tr =>
    let (out, tr') := body tr in
    match fin tr' with
    | (Normal _, tr'') => (out, tr'')
    | (Return v, tr'') => (Return v, tr'')
    | (Raise e, tr'') => (Raise e, tr'')
    end.

(** A function call: [return v] gives [v], falling off the end gives [None],
    an exception goes on to the caller. *)
Definition function (body : M unit) : M pyval :=
  fun tr =>
    match body tr with
    | (Normal _, tr') => (Normal PyNone, tr')
    | (Return v, tr') => (Normal v, tr')
    | (Raise e, tr') => (Raise e, tr')
    end.

(** ** [os.path] *)

(** The four [os.path] functions the loader uses, and the file system they
    look at. *)
Record OsPath : Type := mkOsPath {
  isabs : string -> bool;
  join : string -> string -> string;
  dirname : string -> string;
  path_exists : string -> bool
}.

(** ** The script *)

Section Script.

Variable world : oracle.
Variable os_path : OsPath.
(** [__file__] and [__name__] of the module. *)
Variable file__ : string.
Variable name__ : string.

(** Lines 24-28 of [load_sdk_dlls]: a relative folder is resolved against
    the directory of the script, with a warning. *)
Definition resolve_sdk_folder (sdk_folder_path : string) : M string :=
  if negb (isabs os_path sdk_folder_path) then
    log WARNING ("SDK folder path is relative: " ++ sdk_folder_path
                 ++ ". Trying to resolve it relative to the current file.") ;;
    ret (join os_path (dirname os_path file__) sdk_folder_path)
  else ret sdk_folder_path.

(** [load_sdk_dlls], lines 14-41. *)
Definition load_sdk_dlls (sdk_folder_path : string) : M pyval :=
  function (
    sdk_folder_path <- resolve_sdk_folder sdk_folder_path ;;
    (if negb (path_exists os_path sdk_folder_path) then
       log ERROR ("Dependencies directory does not exist: " ++ sdk_folder_path) ;;
       raise (mkExn FileNotFoundError
                ("Dependencies directory not found: " ++ sdk_folder_path))
     else ret tt) ;;
    ext world (AddReference (join os_path sdk_folder_path "A10x_SDK.dll")) ;;
    ext world (AddReference
      (join os_path sdk_folder_path "Microsoft.Extensions.Logging.Abstractions.dll")) ;;
    ext world (AddReference
      (join os_path sdk_folder_path
         "Microsoft.Extensions.DependencyInjection.Abstractions.dll")) ;;
    ext world (AddReference
      (join os_path sdk_folder_path "System.Diagnostics.DiagnosticSource.dll"))).

(** [has_feature], lines 43-49. *)
Definition has_feature (feature_name : string) : M pyval :=
  function (
    try_except
      (ext world (GetAttr feature_name) ;;
       return_ (PyBool true))
      is_AttributeError
      (fun _ => return_ (PyBool false))).

(** [f"{version.Major}.{version.Minor}.{version.Build}"] *)
Definition version_str_of (version : Version) : string :=
  str_of_int (Major version) ++ "." ++ str_of_int (Minor version)
    ++ "." ++ str_of_int (Build version).

(** The body of the [try] of [check_sdk_version], lines 54-64. *)
Definition version_check_body (required_version : string) : M unit :=
  ext world GetAssembly ;;
  version <- ext world AssemblyVersion ;;
  let version_str := version_str_of version in
  log INFO ("A10x SDK Version: " ++ version_str) ;;
  (if str_lt version_str required_version then
     raise (mkExn PlainException
              ("SDK version " ++ version_str ++ " is below required "
               ++ required_version))
   else ret tt) ;;
  return_ (PyStr version_str).

(** The [except Exception as e] clause, lines 65-67. *)
Definition version_check_handler (e : exn) : M unit :=
  log ERROR ("Version check failed: " ++ exn_str e) ;;
  return_ PyNone.

(** [check_sdk_version], lines 51-67.  [import System] comes before the
    [try]. *)
Definition check_sdk_version (required_version : string) : M pyval :=
  function (
    ext world ImportSystem ;;
    try_except (version_check_body required_version)
      is_Exception version_check_handler).

Definition sdk_folder : string := "..\sdk".

(** Module level, lines 1-73: the runtime, the DLLs, the SDK import. *)
Definition module_load : M unit :=
  ext world (PythonnetLoad "coreclr") ;;
  ext world ImportClr ;;
  load_sdk_dlls sdk_folder ;;
  ext world ImportA10x.

(** Module level, lines 75-78: the version check and its warning. *)
Definition module_version_check : M unit :=
  sdk_version <- check_sdk_version "1.0.0" ;;
  (if negb (truthy sdk_version) then
     log WARNING "Cannot verify SDK version. Proceeding with caution..."
   else ret tt).

Definition device_ip : string := "192.168.137.123".

(** The body of the [try] of [simple_example], lines 113-145.  Defining
    [on_data_received] does nothing by itself; registering and unregistering
    it are the calls [Subscribe] and [Unsubscribe].  What the SDK does with
    the callback on its own threads while the script sleeps is outside the
    trace. *)
Definition acquisition_body : M unit :=
  ext world (Connect device_ip) ;;
  log INFO "Connected to device" ;;
  ext world (SetGain 10) ;;
  ext world (SetAscanAveraging 1) ;;
  ext world (SetPulseRepetitionRate 3) ;;
  ext world (SetQuadro8x4Transmitter 0) ;;
  ext world (SetSingle8x4Transmitter 0) ;;
  ext world Subscribe ;;
  ext world StartAscanSingleTransmitter ;;
  log INFO "Started data acquisition..." ;;
  ext world (Sleep 5) ;;
  ext world StopAcquisition ;;
  log INFO "Stopped data acquisition" ;;
  ext world Unsubscribe ;;
  return_ (PyBool true).

(** The [except Exception as e] clause, lines 147-149. *)
Definition acquisition_handler (e : exn) : M unit :=
  log ERROR ("Error during operation: " ++ exn_str e) ;;
  return_ (PyBool false).

(** The [finally] clause, lines 151-154. *)
Definition acquisition_cleanup : M unit :=
  ext world Disconnect ;;
  log INFO "Disconnected from device".

(** The whole [try] statement, lines 112-154. *)
Definition guarded_acquisition : M unit :=
  try_finally
    (try_except acquisition_body is_Exception acquisition_handler)
    acquisition_cleanup.

(** What precedes the [try], lines 86-105: identification, device info,
    the SDK instance, the feature check. *)
Definition acquisition_prelude : M unit :=
  identified <- ext world (IdentifyDevice device_ip) ;;
  (if negb identified then
     log ERROR ("Cannot identify device at " ++ device_ip) ;;
     return_ (PyBool false)
   else ret tt) ;;
  info <- ext world (GetDeviceInfo device_ip) ;;
  log INFO ("Connected to device: Serial=" ++ Serial info ++ ", MAC=" ++ Mac info) ;;
  ext world NewSDK ;;
  feature <- has_feature "SetGain" ;;
  (if negb (truthy feature) then
     log ERROR "Required feature 'SetGain' is not available in this SDK version." ;;
     return_ (PyBool false)
   else ret tt).

(** [simple_example], lines 81-154. *)
Definition simple_example : M pyval :=
  function (acquisition_prelude ;; guarded_acquisition).

(** The [if __name__ == "__main__"] block, lines 156-162. *)
Definition main_block : M unit :=
  if String.eqb name__ "__main__" then
    log INFO "Starting simple A10x SDK example..." ;;
    success <- simple_example ;;
    (if truthy success then log INFO "Example completed successfully!"
     else log ERROR "Example failed!")
  else ret tt.

(** The script from top to bottom. *)
Definition script : M unit :=
  module_load ;; module_version_check ;; main_block.

End Script.

(** ** Concrete worlds

    Executable instances of the parameters, for running the script. *)

Definition sample_info : DeviceInfo :=
  mkDeviceInfo "A1052-0001" "00:1B:44:11:3A:B7".

(** A world in which every call succeeds: the device is found, the SDK has
    every attribute, the assembly reports [version]. *)
Definition happy_world (version : Version) : oracle :=
  fun T _ c =>
    match c in call T return answer T with
    | IdentifyDevice _ => Ok true
    | GetDeviceInfo _ => Ok sample_info
    | AssemblyVersion => Ok version
    | _ => Ok tt
    end.

(** [base], except that every call selected by [sel] raises [e]. *)
Definition failing_at (sel : forall T, call T -> bool) (e : exn)
    (base : oracle) : oracle :=
  fun T tr c => if sel T c then Throws e else base T tr c.

(** [base], except that the device does not answer identification. *)
Definition unidentified (base : oracle) : oracle :=
  fun T tr c =>
    match c in call T return answer T with
    | IdentifyDevice _ => Ok false
    | c' => base _ tr c'
    end.

Definition is_connect (T : Type) (c : call T) : bool :=
  match c with Connect _ => true | _ => false end.

Definition is_disconnect (T : Type) (c : call T) : bool :=
  match c with Disconnect => true | _ => false end.

Definition is_sleep (T : Type) (c : call T) : bool :=
  match c with Sleep _ => true | _ => false end.

Definition is_add_reference (T : Type) (c : call T) : bool :=
  match c with AddReference _ => true | _ => false end.

Definition is_import_system (T : Type) (c : call T) : bool :=
  match c with ImportSystem => true | _ => false end.

Definition is_reflection (T : Type) (c : call T) : bool :=
  match c with GetAssembly | AssemblyVersion => true | _ => false end.

Definition is_getattr (name : string) (T : Type) (c : call T) : bool :=
  match c with GetAttr n => String.eqb n name | _ => false end.

(** [posixpath], on a file system given by the set of paths that exist. *)
Module Posix.

Definition slash : ascii := "/"%char.

Definition startswith_slash (s : string) : bool :=
  match s with
  | String x _ => Ascii.eqb x slash
  | EmptyString => false
  end.

Fixpoint endswith_slash (s : string) : bool :=
  match s with
  | EmptyString => false
  | String x EmptyString => Ascii.eqb x slash
  | String _ s' => endswith_slash s'
  end.

Fixpoint has_slash (s : string) : bool :=
  match s with
  | EmptyString => false
  | String x s' => Ascii.eqb x slash || has_slash s'
  end.

(** [p[:p.rfind('/') + 1]] *)
Fixpoint head_of (p : string) : string :=
  match p with
  | EmptyString => EmptyString
  | String x p' => if has_slash p then String x (head_of p') else EmptyString
  end.

(** [s.rstrip('/')] *)
Fixpoint rstrip_slash (s : string) : string :=
  match s with
  | EmptyString => EmptyString
  | String x s' =>
      match rstrip_slash s' with
      | EmptyString => if Ascii.eqb x slash then EmptyString else String x EmptyString
      | r => String x r
      end
  end.

Definition isabs (s : string) : bool := startswith_slash s.

Definition join (a b : string) : string :=
  if startswith_slash b then b
  else if String.eqb a "" || endswith_slash a then a ++ b
  else a ++ "/" ++ b.

Definition dirname (p : string) : string :=
  let head := head_of p in
  match rstrip_slash head with
  | EmptyString => head
  | stripped => stripped
  end.

Definition os_path (fs : string -> bool) : OsPath :=
  mkOsPath isabs join dirname fs.

End Posix.

(** Sample worlds, used to run the script on concrete inputs. *)
Definition sdk_1_2_3 : oracle := happy_world (mkVersion 1 2 3).

(** The device refuses the connection. *)
Definition world_connect_fails : oracle :=
  failing_at is_connect (mkExn ClrException "Connection refused") sdk_1_2_3.

(** The user interrupts the five seconds of acquisition. *)
Definition world_interrupted : oracle :=
  failing_at is_sleep (mkExn KeyboardInterrupt "") sdk_1_2_3.

(** The connection is refused, and Disconnect on the unconnected instance
    raises as well. *)
Definition world_cleanup_fails : oracle :=
  failing_at is_connect (mkExn ClrException "Connection refused")
    (failing_at is_disconnect (mkExn ClrException "Not connected") sdk_1_2_3).

(** An SDK without SetGain. *)
Definition world_no_setgain : oracle :=
  failing_at (is_getattr "SetGain")
    (mkExn AttributeError "type object 'A1052SDK' has no attribute 'SetGain'")
    sdk_1_2_3.

(** No device at the address. *)
Definition world_no_device : oracle := unidentified sdk_1_2_3.

(** An SDK older than the minimum. *)
Definition world_old_sdk : oracle := happy_world (mkVersion 0 9 0).

(** The user interrupts the reflection calls of the version check. *)
Definition world_reflection_interrupted : oracle :=
  failing_at is_reflection (mkExn KeyboardInterrupt "") sdk_1_2_3.

(** The [System] namespace cannot be imported. *)
Definition world_no_system : oracle :=
  failing_at is_import_system (mkExn ImportError "No module named 'System'")
    sdk_1_2_3.

Definition script_file : string := "/opt/a1052/PythonExample/simple_example.py".

(** File systems on which every path, or no path, exists. *)
Definition fs_all : OsPath := Posix.os_path (fun _ => true).
Definition fs_none : OsPath := Posix.os_path (fun _ => false).

(** ** Observations on traces *)

(** How many recorded calls satisfy [sel]. *)
Fixpoint count_calls (sel : forall T, call T -> bool) (tr : trace) : nat :=
  match tr with
  | [] => 0
  | Ext c :: tr' => (if sel _ c then 1 else 0) + count_calls sel tr'
  | Log _ _ :: tr' => count_calls sel tr'
  end.

(** The recorded calls, in order, without the log records. *)
Fixpoint calls_of (tr : trace) : list {T : Type & call T} :=
  match tr with
  | [] => []
  | Ext c :: tr' => existT _ _ c :: calls_of tr'
  | Log _ _ :: tr' => calls_of tr'
  end.

(** The log records of level [ERROR], in order. *)
Fixpoint errors_of (tr : trace) : list string :=
  match tr with
  | [] => []
  | Log ERROR msg :: tr' => msg :: errors_of tr'
  | _ :: tr' => errors_of tr'
  end.

(** A statement is silent for [sel] when it only appends to the trace and
    none of the calls it appends is selected by [sel]. *)
Definition silent (sel : forall T, call T -> bool) {A : Type} (m : M A) : Prop :=
  forall tr, exists new,
    snd (m tr) = (tr ++ new)%list /\ count_calls sel new = 0.

(** ** Conditions on the world *)

(** At [tr], [import System] and the reflection calls succeed and the
    assembly reports [v]. *)
Definition reports (world : oracle) (tr : trace) (v : Version) : Prop :=
  world unit tr ImportSystem = Ok tt /\
  world unit (tr ++ [Ext ImportSystem])%list GetAssembly = Ok tt /\
  world Version (tr ++ [Ext ImportSystem; Ext GetAssembly])%list AssemblyVersion
    = Ok v.

(** The SDK class has no attribute [name]: looking it up raises an
    [AttributeError], whenever it is tried. *)
Definition feature_absent (world : oracle) (name : string) : Prop :=
  forall tr, exists e,
    world unit tr (GetAttr name) = Throws e /\ is_AttributeError e = true.



(** The message of the warning on a relative folder. *)
Definition relative_warning (p : string) : event :=
  Log WARNING ("SDK folder path is relative: " ++ p
               ++ ". Trying to resolve it relative to the current file.").

(** The four references [load_sdk_dlls] adds for the folder [q]. *)
Definition references_of (os_path : OsPath) (q : string) : trace :=
  [ Ext (AddReference (join os_path q "A10x_SDK.dll"));
    Ext (AddReference
           (join os_path q "Microsoft.Extensions.Logging.Abstractions.dll"));
    Ext (AddReference
           (join os_path q
              "Microsoft.Extensions.DependencyInjection.Abstractions.dll"));
    Ext (AddReference
           (join os_path q "System.Diagnostics.DiagnosticSource.dll")) ].

(** What [simple_example] records up to the feature check when the device
    is identified and reports [info]. *)
Definition prelude_events (info : DeviceInfo) : trace :=
  [ Ext (IdentifyDevice device_ip);
    Ext (GetDeviceInfo device_ip);
    Log INFO ("Connected to device: Serial=" ++ Serial info
              ++ ", MAC=" ++ Mac info);
    Ext NewSDK;
    Ext (GetAttr "SetGain") ].

(** What the body of the [try] records when nothing raises. *)
Definition body_events : trace :=
  [ Ext (Connect device_ip);
    Log INFO "Connected to device";
    Ext (SetGain 10);
    Ext (SetAscanAveraging 1);
    Ext (SetPulseRepetitionRate 3);
    Ext (SetQuadro8x4Transmitter 0);
    Ext (SetSingle8x4Transmitter 0);
    Ext Subscribe;
    Ext StartAscanSingleTransmitter;
    Log INFO "Started data acquisition...";
    Ext (Sleep 5);
    Ext StopAcquisition;
    Log INFO "Stopped data acquisition";
    Ext Unsubscribe ].

(** What the [finally] clause records when Disconnect comes back. *)
Definition cleanup_events : trace :=
  [ Ext Disconnect; Log INFO "Disconnected from device" ].

(** The record the handler of [simple_example] logs for [e]. *)
Definition operation_failed (e : exn) : event :=
  Log ERROR ("Error during operation: " ++ exn_str e).

(** The record logged when the device does not answer identification. *)
Definition cannot_identify : event :=
  Log ERROR ("Cannot identify device at " ++ device_ip).

(** The record logged when SetGain is missing. *)
Definition feature_missing : event :=
  Log ERROR "Required feature 'SetGain' is not available in this SDK version.".

(** What [check_sdk_version] records when the assembly reports [v]. *)
Definition reflection_events (v : Version) : trace :=
  [ Ext ImportSystem; Ext GetAssembly; Ext AssemblyVersion;
    Log INFO ("A10x SDK Version: " ++ version_str_of v) ].

(** The message of the exception raised on a version below the minimum. *)
Definition below_required (v : Version) (required : string) : string :=
  "SDK version " ++ version_str_of v ++ " is below required " ++ required.

(** The record the handler of [check_sdk_version] logs for [e]. *)
Definition version_check_failed (e : exn) : event :=
  Log ERROR ("Version check failed: " ++ exn_str e).

(** The warning of the module level after a failed version check. *)
Definition cannot_verify : event :=
  Log WARNING "Cannot verify SDK version. Proceeding with caution...".

(** A selector that selects nothing: silence for it says only that the
    trace is extended. *)
Definition no_call (T : Type) (c : call T) : bool := false.

(** Numeric, component-wise "less than" on versions: what the version check
    would decide if it compared numbers.  Not in the script; the script
    compares the formatted strings with [str_lt]. *)
Definition version_lt_numeric (a b : Version) : bool :=
  (Major a <? Major b)%Z
  || ((Major a =? Major b)%Z
      && ((Minor a <? Minor b)%Z
          || ((Minor a =? Minor b)%Z && (Build a <? Build b)%Z))).

(** ** Further conditions and sample worlds *)

(** Every component of the version is a single decimal digit. *)
Definition single_digit (v : Version) : Prop :=
  (0 <= Major v <= 9)%Z /\ (0 <= Minor v <= 9)%Z /\ (0 <= Build v <= 9)%Z.

(** The records of the main block. *)
Definition example_starting : event :=
  Log INFO "Starting simple A10x SDK example...".

Definition example_completed : event :=
  Log INFO "Example completed successfully!".

Definition example_failed : event := Log ERROR "Example failed!".

(** What the module level records before it resolves the SDK folder. *)
Definition runtime_events : trace :=
  [ Ext (PythonnetLoad "coreclr"); Ext ImportClr ].

Definition is_identify (T : Type) (c : call T) : bool :=
  match c with IdentifyDevice _ => true | _ => false end.

(** The call that loads the DLL at [path]. *)
Definition is_add_reference_of (path : string) (T : Type) (c : call T) : bool :=
  match c with AddReference p => String.eqb p path | _ => false end.

(** The identification itself fails, with a network error. *)
Definition world_identify_fails : oracle :=
  failing_at is_identify (mkExn ClrException "Network unreachable") sdk_1_2_3.

(** The second of the four DLLs cannot be loaded. *)
Definition world_second_dll_fails : oracle :=
  failing_at
    (is_add_reference_of
       "/opt/a1052/sdk/Microsoft.Extensions.Logging.Abstractions.dll")
    (mkExn ClrException "Could not load file or assembly") sdk_1_2_3.

(** ** Running a fixed sequence of events *)

(** The exception the world answers at [tr] to the event [ev], if [ev] is a
    call and the world makes it raise. *)
Definition thrown (world : oracle) (tr : trace) (ev : event) : option exn :=
  match ev with
  | Ext c =>
      match world _ tr c with
      | Ok _ => None
      | Throws e => Some e
      end
  | Log _ _ => None
  end.

(** "Do these things in this order and stop at the first call that raises":
    each event is recorded in turn; the first call the world answers with an
    exception ends the run with that exception, nothing after it being
    recorded. *)
Fixpoint run_sequence (world : oracle) (tr : trace) (evs : list event)
    : option exn * trace :=
  match evs with
  | [] => (None, tr)
  | ev :: evs' =>
      match thrown world tr ev with
      | Some e => (Some e, (tr ++ [ev])%list)
      | None => run_sequence world (tr ++ [ev])%list evs'
      end
  end.

(** Every call among [evs], made in this order from [tr], comes back without
    an exception. *)
Fixpoint calls_succeed (world : oracle) (tr : trace) (evs : list event) : Prop :=
  match evs with
  | [] => True
  | ev :: evs' =>
      thrown world tr ev = None /\ calls_succeed world (tr ++ [ev])%list evs'
  end.

(** * Properties *)

(** ** Traces *)

Lemma count_calls_app sel (a b : trace) :
  count_calls sel (a ++ b)%list = count_calls sel a + count_calls sel b.
Proof.
  induction a as [|ev a IH]; simpl; [reflexivity|].
  destruct ev; rewrite IH; lia.
Qed.

(** ** Silence of the monad's operations *)

Section Silence.

Variable sel : forall T, call T -> bool.

Lemma silent_ret A (a : A) : silent sel (ret a).
Proof. intros tr; exists []; split; [symmetry; apply app_nil_r | reflexivity]. Qed.

Lemma silent_return A v : silent sel (@return_ A v).
Proof. intros tr; exists []; split; [symmetry; apply app_nil_r | reflexivity]. Qed.

Lemma silent_raise A e : silent sel (@raise A e).
Proof. intros tr; exists []; split; [symmetry; apply app_nil_r | reflexivity]. Qed.

Lemma silent_log lvl msg : silent sel (log lvl msg).
Proof. intros tr; exists [Log lvl msg]; split; reflexivity. Qed.

Lemma silent_ext world T (c : call T) :
  sel T c = false -> silent sel (ext world c).
Proof.
  intros Hc tr; exists [Ext c]; unfold ext; split.
  - destruct (world T tr c); reflexivity.
  - simpl. rewrite Hc. reflexivity.
Qed.

Lemma silent_bind A B (m : M A) (k : A -> M B) :
  silent sel m -> (forall a, silent sel (k a)) -> silent sel (bind m k).
Proof.
  intros Hm Hk tr. unfold bind.
  destruct (Hm tr) as [n1 [E1 C1]].
  destruct (m tr) as [[a|v|e] tr1]; simpl in E1; subst tr1;
    try (exists n1; split; [reflexivity | exact C1]).
  destruct (Hk a (tr ++ n1)%list) as [n2 [E2 C2]].
  exists (n1 ++ n2)%list; split.
  - rewrite E2. symmetry. apply app_assoc.
  - rewrite count_calls_app. lia.
Qed.

Lemma silent_if A (b : bool) (m1 m2 : M A) :
  silent sel m1 -> silent sel m2 -> silent sel (if b then m1 else m2).
Proof. destruct b; auto. Qed.

Lemma silent_try_except A (body : M A) catches handler :
  silent sel body -> (forall e, silent sel (handler e)) ->
  silent sel (try_except body catches handler).
Proof.
  intros Hb Hh tr. unfold try_except.
  destruct (Hb tr) as [n1 [E1 C1]].
  destruct (body tr) as [[a|v|e] tr1]; simpl in E1; subst tr1;
    try (exists n1; split; [reflexivity | exact C1]).
  destruct (catches e); [|exists n1; split; [reflexivity | exact C1]].
  destruct (Hh e (tr ++ n1)%list) as [n2 [E2 C2]].
  exists (n1 ++ n2)%list; split.
  - rewrite E2. symmetry. apply app_assoc.
  - rewrite count_calls_app. lia.
Qed.

Lemma silent_try_finally A (body : M A) (fin : M unit) :
  silent sel body -> silent sel fin -> silent sel (try_finally body fin).
Proof.
  intros Hb Hf tr. unfold try_finally.
  destruct (Hb tr) as [n1 [E1 C1]].
  destruct (body tr) as [out tr1]; simpl in E1; subst tr1.
  destruct (Hf (tr ++ n1)%list) as [n2 [E2 C2]].
  exists (n1 ++ n2)%list; split.
  - destruct (fin (tr ++ n1)%list) as [[u|v|e] tr2]; simpl in E2 |- *;
      rewrite E2; symmetry; apply app_assoc.
  - rewrite count_calls_app. lia.
Qed.

Lemma silent_function (body : M unit) :
  silent sel body -> silent sel (function body).
Proof.
  intros Hb tr. unfold function.
  destruct (Hb tr) as [n1 [E1 C1]].
  destruct (body tr) as [[a|v|e] tr1]; simpl in E1; subst tr1;
    exists n1; split; (reflexivity || exact C1).
Qed.

End Silence.

(** Discharges the silence of a block, once unfolded, from the lemmas
    above, statement by statement. *)
Ltac silence :=
  repeat (first
    [ apply silent_bind; [|intros]
    | apply silent_if
    | apply silent_try_except; [|intros]
    | apply silent_try_finally
    | apply silent_function
    | apply silent_ret | apply silent_return | apply silent_raise
    | apply silent_log
    | apply silent_ext; reflexivity ]).

(** ** [simple_example]: where Connect and Disconnect can occur *)

Lemma acquisition_body_no_disconnect world :
  silent is_disconnect (acquisition_body world).
Proof. unfold acquisition_body. silence. Qed.

Lemma acquisition_handler_silent (sel : forall T, call T -> bool) e :
  silent sel (acquisition_handler e).
Proof. unfold acquisition_handler. silence. Qed.

Lemma acquisition_prelude_no_disconnect world :
  silent is_disconnect (acquisition_prelude world).
Proof.
  unfold acquisition_prelude, has_feature. silence.
Qed.

Lemma acquisition_prelude_no_connect world :
  silent is_connect (acquisition_prelude world).
Proof.
  unfold acquisition_prelude, has_feature. silence.
Qed.

(** The [finally] clause calls Disconnect once, and logs when it came back. *)
Lemma acquisition_cleanup_run world tr :
  acquisition_cleanup world tr =
    match world unit tr Disconnect with
    | Ok _ => (Normal tt,
               (tr ++ [Ext Disconnect; Log INFO "Disconnected from device"])%list)
    | Throws e => (Raise e, (tr ++ [Ext Disconnect])%list)
    end.
Proof.
  unfold acquisition_cleanup, bind, ext, log.
  destruct (world unit tr Disconnect); [|reflexivity].
  rewrite <- app_assoc. reflexivity.
Qed.

Lemma acquisition_cleanup_trace world tr :
  exists post,
    snd (acquisition_cleanup world tr) = (tr ++ Ext Disconnect :: post)%list /\
    count_calls is_disconnect post = 0.
Proof.
  rewrite acquisition_cleanup_run.
  destruct (world unit tr Disconnect).
  - exists [Log INFO "Disconnected from device"]. split; reflexivity.
  - exists []. split; reflexivity.
Qed.

(** Once the feature check is passed, [simple_example] is its [try]
    statement. *)
Lemma simple_example_enters world tr0 tr :
  acquisition_prelude world tr0 = (Normal tt, tr) ->
  simple_example world tr0 = function (guarded_acquisition world) tr.
Proof.
  intros H. unfold simple_example, function, bind. rewrite H. reflexivity.
Qed.

Lemma snd_function body tr : snd (function body tr) = snd (body tr).
Proof. unfold function. destruct (body tr) as [[a|v|e] tr']; reflexivity. Qed.

(** Whatever the [try] body and its handler do, the [try] statement appends
    their events and then exactly one Disconnect. *)
Lemma guarded_acquisition_trace world tr :
  exists post,
    snd (guarded_acquisition world tr) =
      (snd (try_except (acquisition_body world) is_Exception
              acquisition_handler tr)
       ++ Ext Disconnect :: post)%list /\
    count_calls is_disconnect post = 0.
Proof.
  unfold guarded_acquisition, try_finally.
  destruct (try_except _ _ _ tr) as [out tr1]. simpl.
  destruct (acquisition_cleanup_trace world tr1) as [post [E C]].
  exists post. split; [|exact C].
  destruct (acquisition_cleanup world tr1) as [[u|v|e] tr2]; exact E.
Qed.

Lemma guarded_acquisition_disconnects_once world tr :
  count_calls is_disconnect (snd (guarded_acquisition world tr)) =
    count_calls is_disconnect tr + 1.
Proof.
  destruct (guarded_acquisition_trace world tr) as [post [E C]].
  rewrite E.
  destruct (silent_try_except is_disconnect unit (acquisition_body world)
              is_Exception acquisition_handler
              (acquisition_body_no_disconnect world)
              (acquisition_handler_silent is_disconnect) tr) as [new [E1 C1]].
  rewrite E1. rewrite !count_calls_app. simpl. lia.
Qed.

(** C1. For every exception raised at any point inside the [try] block of
    [simple_example], whatever its class, Disconnect is invoked exactly once
    before [simple_example] is left: the trace gains exactly one Disconnect,
    none of them was recorded when the exception was raised, and what was
    recorded then is a prefix of the final trace. *)
Theorem disconnect_once_on_exception world tr0 tr e trb :
  acquisition_prelude world tr0 = (Normal tt, tr) ->
  acquisition_body world tr = (Raise e, trb) ->
  count_calls is_disconnect (snd (simple_example world tr0))
    = count_calls is_disconnect tr0 + 1 /\
  count_calls is_disconnect trb = count_calls is_disconnect tr0 /\
  exists post,
    snd (simple_example world tr0) = (trb ++ post)%list /\
    count_calls is_disconnect post = 1.
Proof.
  intros Hpre Hbody.
  rewrite (simple_example_enters world tr0 tr Hpre), snd_function.
  destruct (acquisition_prelude_no_disconnect world tr0) as [n0 [E0 C0]].
  rewrite Hpre in E0; simpl in E0.
  destruct (acquisition_body_no_disconnect world tr) as [n1 [E1 C1]].
  rewrite Hbody in E1; simpl in E1.
  assert (Htrb : count_calls is_disconnect trb = count_calls is_disconnect tr0).
  { rewrite E1, E0, !count_calls_app. lia. }
  split; [|split; [exact Htrb|]].
  - rewrite guarded_acquisition_disconnects_once, E0, count_calls_app. lia.
  - destruct (guarded_acquisition_trace world tr) as [post [E C]].
    unfold try_except in E. rewrite Hbody in E.
    destruct (is_Exception e); simpl in E.
    + exists (Log ERROR ("Error during operation: " ++ exn_str e)
              :: Ext Disconnect :: post).
      split; [rewrite E; rewrite <- app_assoc; reflexivity | simpl; lia].
    + exists (Ext Disconnect :: post).
      split; [exact E | simpl; lia].
Qed.

(** ** [load_sdk_dlls] *)

(** Path resolution never fails: it is the identity on absolute paths, and
    on relative ones it warns and joins with the script's directory. *)
Lemma resolve_sdk_folder_run os file p tr :
  resolve_sdk_folder os file p tr =
    if isabs os p then (Normal p, tr)
    else (Normal (join os (dirname os file) p), (tr ++ [relative_warning p])%list).
Proof.
  unfold resolve_sdk_folder. destruct (isabs os p); reflexivity.
Qed.

(** After resolution to [q], a missing [q] stops the loader at once. *)
Lemma load_sdk_dlls_missing world os file p tr q tr1 :
  resolve_sdk_folder os file p tr = (Normal q, tr1) ->
  path_exists os q = false ->
  load_sdk_dlls world os file p tr =
    (Raise (mkExn FileNotFoundError ("Dependencies directory not found: " ++ q)),
     (tr1 ++ [Log ERROR ("Dependencies directory does not exist: " ++ q)])%list).
Proof.
  intros Hres Hex. unfold load_sdk_dlls, function, bind at 1.
  rewrite Hres. unfold bind at 1. rewrite Hex. reflexivity.
Qed.

(** After resolution to [q], an existing [q] is the folder the first DLL is
    loaded from. *)
Lemma load_sdk_dlls_first world os file p tr q tr1 :
  resolve_sdk_folder os file p tr = (Normal q, tr1) ->
  path_exists os q = true ->
  exists rest,
    snd (load_sdk_dlls world os file p tr) =
      (tr1 ++ Ext (AddReference (join os q "A10x_SDK.dll")) :: rest)%list.
Proof.
  intros Hres Hex. unfold load_sdk_dlls. rewrite snd_function. unfold bind at 1.
  rewrite Hres. unfold bind at 1. rewrite Hex. simpl.
  unfold bind at 1, ext at 1.
  destruct (world unit tr1 _) as [u|e]; [|exists []; reflexivity].
  match goal with
  | |- context [bind ?m ?k ?t] =>
      assert (H : exists new, snd (bind m k t) = (t ++ new)%list)
  end.
  { match goal with
    | |- context [bind ?m ?k ?t] =>
        destruct (silent_bind (fun _ _ => false) _ _ m k) with (tr := t)
          as [new [E _]]
    end.
    - apply silent_ext; reflexivity.
    - intros; apply silent_bind; [|intros]; apply silent_ext; reflexivity.
    - exists new. exact E. }
  destruct H as [new E]. exists new. rewrite E, <- app_assoc. reflexivity.
Qed.

(** After resolution to [q], when [q] exists and the runtime accepts every
    reference, the four DLLs are loaded from [q], in the order of the
    source. *)
Lemma load_sdk_dlls_all (world : oracle) os file p tr q tr1 :
  resolve_sdk_folder os file p tr = (Normal q, tr1) ->
  path_exists os q = true ->
  (forall tr' path, world unit tr' (AddReference path) = Ok tt) ->
  load_sdk_dlls world os file p tr =
    (Normal PyNone, (tr1 ++ references_of os q)%list).
Proof.
  intros Hres Hex Hok. unfold load_sdk_dlls, function, bind at 1.
  rewrite Hres. unfold bind at 1. rewrite Hex. simpl.
  unfold bind, ext. rewrite !Hok.
  unfold references_of. rewrite <- !app_assoc. reflexivity.
Qed.

(** C2. When the resolved SDK folder does not exist, [load_sdk_dlls] raises
    a [FileNotFoundError] naming it, after logging the error, and no
    [clr.AddReference] call has been made: the count of such calls in the
    trace is unchanged. *)
Theorem load_sdk_dlls_missing_folder world os file p tr q tr1 :
  resolve_sdk_folder os file p tr = (Normal q, tr1) ->
  path_exists os q = false ->
  load_sdk_dlls world os file p tr =
    (Raise (mkExn FileNotFoundError ("Dependencies directory not found: " ++ q)),
     (tr1 ++ [Log ERROR ("Dependencies directory does not exist: " ++ q)])%list)
  /\ count_calls is_add_reference (snd (load_sdk_dlls world os file p tr))
     = count_calls is_add_reference tr.
Proof.
  intros Hres Hex.
  rewrite (load_sdk_dlls_missing world os file p tr q tr1 Hres Hex).
  split; [reflexivity|]. simpl.
  rewrite resolve_sdk_folder_run in Hres.
  destruct (isabs os p); inversion Hres; subst;
    rewrite !count_calls_app; simpl; lia.
Qed.

(** What the loader does with its argument, whatever [os.path] and
    [__file__] are.  For a relative [sdk_folder_path] it logs the warning and
    goes on with [os.path.join(os.path.dirname(__file__), p)]: that is the
    folder whose existence is checked and from which the DLLs are loaded.
    An absolute path is used as it is, with no warning.  Whether the joined
    folder is itself absolute is a matter of [__file__], see below. *)
Lemma load_sdk_dlls_resolution (world : oracle) os file p tr :
  (isabs os p = false ->
   let q := join os (dirname os file) p in
   let tr1 := (tr ++ [relative_warning p])%list in
   resolve_sdk_folder os file p tr = (Normal q, tr1) /\
   (path_exists os q = false ->
    load_sdk_dlls world os file p tr =
      (Raise (mkExn FileNotFoundError ("Dependencies directory not found: " ++ q)),
       (tr1 ++ [Log ERROR ("Dependencies directory does not exist: " ++ q)])%list)) /\
   (path_exists os q = true ->
    exists rest,
      snd (load_sdk_dlls world os file p tr) =
        (tr1 ++ Ext (AddReference (join os q "A10x_SDK.dll")) :: rest)%list) /\
   (path_exists os q = true ->
    (forall tr' path, world unit tr' (AddReference path) = Ok tt) ->
    load_sdk_dlls world os file p tr =
      (Normal PyNone, (tr1 ++ references_of os q)%list)))
  /\
  (isabs os p = true ->
   resolve_sdk_folder os file p tr = (Normal p, tr) /\
   (path_exists os p = false ->
    load_sdk_dlls world os file p tr =
      (Raise (mkExn FileNotFoundError ("Dependencies directory not found: " ++ p)),
       (tr ++ [Log ERROR ("Dependencies directory does not exist: " ++ p)])%list)) /\
   (path_exists os p = true ->
    exists rest,
      snd (load_sdk_dlls world os file p tr) =
        (tr ++ Ext (AddReference (join os p "A10x_SDK.dll")) :: rest)%list) /\
   (path_exists os p = true ->
    (forall tr' path, world unit tr' (AddReference path) = Ok tt) ->
    load_sdk_dlls world os file p tr =
      (Normal PyNone, (tr ++ references_of os p)%list))).
Proof.
  split; intros Habs; cbv zeta;
    pose proof (resolve_sdk_folder_run os file p tr) as Hres;
    rewrite Habs in Hres;
    (split; [exact Hres|]); (split; [|split]).
  - apply load_sdk_dlls_missing, Hres.
  - apply load_sdk_dlls_first, Hres.
  - apply load_sdk_dlls_all, Hres.
  - apply load_sdk_dlls_missing, Hres.
  - apply load_sdk_dlls_first, Hres.
  - apply load_sdk_dlls_all, Hres.
Qed.

(** C10. The comment of line 25 says a relative path is made absolute,
    resolved against the directory of the script and not against the
    working directory.  The code joins with [os.path.dirname(__file__)] and
    nothing else, so this holds only as far as [__file__] is absolute.  In a
    module whose [__file__] is the bare name [simple_example.py] the
    directory is the empty string: the folder [..\sdk] of the script is
    "resolved" to [..\sdk] itself, still relative, and that path, which the
    system reads against the working directory, is the one whose existence
    is checked and from which the DLLs are loaded.  ([posixpath] and
    [ntpath] agree on this input.) *)
Theorem relative_script_path_stays_relative :
  dirname fs_all "simple_example.py" = "" /\
  resolve_sdk_folder fs_all "simple_example.py" sdk_folder [] =
    (Normal sdk_folder, [relative_warning sdk_folder]) /\
  isabs fs_all sdk_folder = false /\
  load_sdk_dlls sdk_1_2_3 fs_none "simple_example.py" sdk_folder [] =
    (Raise (mkExn FileNotFoundError "Dependencies directory not found: ..\sdk"),
     [relative_warning sdk_folder;
      Log ERROR "Dependencies directory does not exist: ..\sdk"]) /\
  load_sdk_dlls sdk_1_2_3 fs_all "simple_example.py" sdk_folder [] =
    (Normal PyNone,
     [relative_warning sdk_folder;
      Ext (AddReference "..\sdk/A10x_SDK.dll");
      Ext (AddReference "..\sdk/Microsoft.Extensions.Logging.Abstractions.dll");
      Ext (AddReference
             "..\sdk/Microsoft.Extensions.DependencyInjection.Abstractions.dll");
      Ext (AddReference "..\sdk/System.Diagnostics.DiagnosticSource.dll")]).
Proof. repeat split; reflexivity. Qed.

(** ** [check_sdk_version] *)

(** The [try] body on a world whose reflection answers: it returns the
    formatted version, or raises when that string is below the minimum. *)
Lemma version_check_body_run (world : oracle) required tr v :
  world unit tr GetAssembly = Ok tt ->
  world Version (tr ++ [Ext GetAssembly])%list AssemblyVersion = Ok v ->
  version_check_body world required tr =
    ((if str_lt (version_str_of v) required
      then Raise (mkExn PlainException (below_required v required))
      else Return (PyStr (version_str_of v))),
     (tr ++ [Ext GetAssembly; Ext AssemblyVersion;
             Log INFO ("A10x SDK Version: " ++ version_str_of v)])%list).
Proof.
  intros H1 H2. unfold version_check_body, bind, ext, log, raise, ret, return_.
  rewrite H1, H2. rewrite <- !app_assoc. simpl.
  destruct (str_lt (version_str_of v) required); reflexivity.
Qed.

Lemma check_sdk_version_below (world : oracle) required tr v :
  reports world tr v ->
  str_lt (version_str_of v) required = true ->
  check_sdk_version world required tr =
    (Normal PyNone,
     (tr ++ reflection_events v
         ++ [version_check_failed (mkExn PlainException (below_required v required))])%list).
Proof.
  intros (Hi & Ha & Hv) Hlt.
  unfold check_sdk_version, function, bind at 1, ext at 1. rewrite Hi.
  unfold try_except.
  rewrite (version_check_body_run world required _ v Ha);
    [|rewrite <- app_assoc; exact Hv].
  rewrite Hlt. simpl. rewrite <- !app_assoc. reflexivity.
Qed.

Lemma check_sdk_version_accepts (world : oracle) required tr v :
  reports world tr v ->
  str_lt (version_str_of v) required = false ->
  check_sdk_version world required tr =
    (Normal (PyStr (version_str_of v)), (tr ++ reflection_events v)%list).
Proof.
  intros (Hi & Ha & Hv) Hlt.
  unfold check_sdk_version, function, bind at 1, ext at 1. rewrite Hi.
  unfold try_except.
  rewrite (version_check_body_run world required _ v Ha);
    [|rewrite <- app_assoc; exact Hv].
  rewrite Hlt. simpl. rewrite <- !app_assoc. reflexivity.
Qed.

(** The formatted version is never the empty string. *)
Lemma version_str_of_nonempty v : String.eqb (version_str_of v) "" = false.
Proof.
  unfold version_str_of.
  destruct (str_of_int (Major v)) as [|c s] eqn:E; reflexivity.
Qed.


(** The trace of a call is the old trace and the call. *)
Lemma snd_ext world T (c : call T) tr :
  snd (ext world c tr) = (tr ++ [Ext c])%list.
Proof. unfold ext. destruct (world T tr c); reflexivity. Qed.

(** A continuation that only appends leaves what came before in place. *)
Lemma bind_extends A B (m : M A) (k : A -> M B) tr :
  (forall a, silent no_call (k a)) ->
  exists new, snd (bind m k tr) = (snd (m tr) ++ new)%list.
Proof.
  intros Hk. unfold bind.
  destruct (m tr) as [[a|v|e] tr1]; simpl;
    try (exists []; symmetry; apply app_nil_r).
  destruct (Hk a tr1) as [new [E _]]. exists new. exact E.
Qed.

(** [simple_example] only ever extends the trace, and its first event is
    the identification call. *)
Lemma simple_example_starts world tr :
  exists rest,
    snd (simple_example world tr) =
      (tr ++ Ext (IdentifyDevice device_ip) :: rest)%list.
Proof.
  unfold simple_example. rewrite snd_function.
  destruct (bind_extends _ _ (acquisition_prelude world)
              (fun _ => guarded_acquisition world) tr) as [n1 E1].
  { intros _. unfold guarded_acquisition, acquisition_body,
      acquisition_handler, acquisition_cleanup. silence. }
  rewrite E1. unfold acquisition_prelude.
  match goal with
  | |- context [bind ?m ?k tr] =>
      destruct (bind_extends _ _ m k tr) as [n2 E2]
  end.
  { intros b. unfold has_feature. silence. }
  rewrite E2, snd_ext. exists (n2 ++ n1)%list.
  rewrite <- !app_assoc. reflexivity.
Qed.

(** C3. When the version string the assembly reports compares lexically
    below the required one, [check_sdk_version] logs the failure as an error
    and returns [None]; and at module level, where the required version is
    "1.0.0", the script then logs its warning and goes on with the rest of
    the module: with [__name__ == "__main__"] the next things it does are to
    announce the example and to call [simple_example], whose first act is
    the identification call. *)
Theorem version_below_minimum (world : oracle) required v tr :
  reports world tr v ->
  str_lt (version_str_of v) required = true ->
  let failure :=
    version_check_failed (mkExn PlainException (below_required v required)) in
  check_sdk_version world required tr =
    (Normal PyNone, (tr ++ reflection_events v ++ [failure])%list)
  /\
  (required = "1.0.0" ->
   forall os file name tr0,
     module_load world os file tr0 = (Normal tt, tr) ->
     let tr2 := (tr ++ reflection_events v ++ [failure; cannot_verify])%list in
     script world os file name tr0 = main_block world name tr2 /\
     (name = "__main__" ->
      exists rest,
        snd (script world os file name tr0) =
          (tr2 ++ Log INFO "Starting simple A10x SDK example..."
               :: Ext (IdentifyDevice device_ip) :: rest)%list)).
Proof.
  intros Hrep Hlt failure.
  pose proof (check_sdk_version_below world required tr v Hrep Hlt) as Hcheck.
  split; [exact Hcheck|].
  intros -> os file name tr0 Hload tr2.
  assert (Hscript : script world os file name tr0 = main_block world name tr2).
  { unfold script, bind at 1. rewrite Hload.
    unfold bind at 1, module_version_check, bind at 1.
    rewrite Hcheck. simpl. unfold log. simpl. unfold tr2, failure.
    rewrite <- !app_assoc. reflexivity. }
  split; [exact Hscript|].
  intros ->. rewrite Hscript. unfold main_block. rewrite String.eqb_refl.
  unfold bind at 1, log at 1.
  match goal with
  | |- context [bind ?m ?k ?t] => destruct (bind_extends _ _ m k t) as [n E]
  end.
  { intros success. destruct (truthy success); apply silent_log. }
  rewrite E.
  destruct (simple_example_starts world
              (tr2 ++ [Log INFO "Starting simple A10x SDK example..."])%list)
    as [rest Hs].
  rewrite Hs. exists (rest ++ n)%list. rewrite <- !app_assoc. reflexivity.
Qed.

(** C7. The version check compares the formatted strings, not the numbers:
    version 10.0.0 is numerically above the minimum 9.0.0, yet "10.0.0" is
    lexically below "9.0.0", and on every world whose assembly reports
    10.0.0 [check_sdk_version "9.0.0"] logs the failure and returns
    [None]. *)
Theorem lexical_version_comparison :
  let v := mkVersion 10 0 0 in
  let minimum := mkVersion 9 0 0 in
  version_lt_numeric minimum v = true /\
  version_lt_numeric v minimum = false /\
  version_str_of v = "10.0.0" /\
  version_str_of minimum = "9.0.0" /\
  str_lt (version_str_of v) (version_str_of minimum) = true /\
  forall (world : oracle) tr,
    reports world tr v ->
    check_sdk_version world (version_str_of minimum) tr =
      (Normal PyNone,
       (tr ++ reflection_events v
           ++ [version_check_failed
                 (mkExn PlainException
                    "SDK version 10.0.0 is below required 9.0.0")])%list).
Proof.
  cbv zeta. repeat (split; [reflexivity|]).
  intros world tr Hrep.
  apply (check_sdk_version_below world "9.0.0" tr (mkVersion 10 0 0) Hrep).
  reflexivity.
Qed.

(** C9, as the code has it. Once [import System] has succeeded, every
    exception of class [Exception] that arises in the [try] body of
    [check_sdk_version] (a reflection failure, the exception raised on a
    version below the minimum) is caught and logged, and [None] is returned;
    an exception that is not of class [Exception] goes on to the caller;
    when the body raises nothing the function returns the version string,
    which is then not below the minimum; the body never falls through.  So on
    a world that only raises [Exception]s the function always returns, with
    [None] or a version string. *)
Theorem check_sdk_version_catches (world : oracle) required tr :
  world unit tr ImportSystem = Ok tt ->
  let tr1 := (tr ++ [Ext ImportSystem])%list in
  (forall e trb,
     version_check_body world required tr1 = (Raise e, trb) ->
     is_Exception e = true ->
     check_sdk_version world required tr =
       (Normal PyNone, (trb ++ [version_check_failed e])%list))
  /\
  (forall e trb,
     version_check_body world required tr1 = (Raise e, trb) ->
     is_Exception e = false ->
     check_sdk_version world required tr = (Raise e, trb))
  /\
  (forall x trb,
     version_check_body world required tr1 = (Return x, trb) ->
     check_sdk_version world required tr = (Normal x, trb) /\
     exists v, reports world tr v /\ x = PyStr (version_str_of v) /\
               str_lt (version_str_of v) required = false)
  /\
  (forall trb, version_check_body world required tr1 <> (Normal tt, trb))
  /\
  ((forall T t (c : call T) e, world T t c = Throws e -> is_Exception e = true) ->
   exists x, fst (check_sdk_version world required tr) = Normal x /\
             (x = PyNone \/ exists v, x = PyStr (version_str_of v))).
Proof.
  intros Himp tr1.
  assert (Hrun : check_sdk_version world required tr =
                 function (try_except (version_check_body world required)
                             is_Exception version_check_handler) tr1).
  { unfold check_sdk_version, function, bind, ext. rewrite Himp. reflexivity. }
  split; [|split; [|split; [|split]]].
  - intros e trb Hbody Hexc. rewrite Hrun.
    unfold function, try_except. rewrite Hbody, Hexc. reflexivity.
  - intros e trb Hbody Hexc. rewrite Hrun.
    unfold function, try_except. rewrite Hbody, Hexc. reflexivity.
  - intros x trb Hbody. rewrite Hrun.
    unfold function, try_except. rewrite Hbody. split; [reflexivity|].
    revert Hbody. unfold version_check_body, bind, ext, log, raise, ret, return_.
    destruct (world unit tr1 GetAssembly) as [[]|e1] eqn:Ha; [|discriminate].
    destruct (world Version _ AssemblyVersion) as [v|e2] eqn:Hv; [|discriminate].
    destruct (str_lt (version_str_of v) required) eqn:Hlt; [discriminate|].
    intros H. inversion H; subst. exists v.
    repeat split; try assumption.
    unfold tr1 in Hv. rewrite <- app_assoc in Hv. exact Hv.
  - intros trb. unfold version_check_body, bind, ext, log, raise, ret, return_.
    destruct (world unit tr1 GetAssembly) as [[]|e1]; [|discriminate].
    destruct (world Version _ AssemblyVersion) as [v|e2]; [|discriminate].
    destruct (str_lt (version_str_of v) required); discriminate.
  - intros Hworld. rewrite Hrun.
    unfold function, try_except, version_check_body, bind, ext, log, raise,
      ret, return_, version_check_handler.
    destruct (world unit tr1 GetAssembly) as [[]|e1] eqn:Ha.
    + destruct (world Version _ AssemblyVersion) as [v|e2] eqn:Hv.
      * destruct (str_lt (version_str_of v) required); simpl.
        -- exists PyNone. split; [reflexivity | left; reflexivity].
        -- exists (PyStr (version_str_of v)).
           split; [reflexivity | right; exists v; reflexivity].
      * rewrite (Hworld _ _ _ _ Hv). simpl.
        exists PyNone. split; [reflexivity | left; reflexivity].
    + rewrite (Hworld _ _ _ _ Ha). simpl.
      exists PyNone. split; [reflexivity | left; reflexivity].
Qed.

(** ** [has_feature] and the feature gate of [simple_example] *)

Lemma has_feature_false (world : oracle) name tr e :
  world unit tr (GetAttr name) = Throws e ->
  is_AttributeError e = true ->
  has_feature world name tr =
    (Normal (PyBool false), (tr ++ [Ext (GetAttr name)])%list).
Proof.
  intros Hw He. unfold has_feature, function, try_except, bind, ext.
  rewrite Hw, He. reflexivity.
Qed.

Lemma has_feature_true (world : oracle) name tr :
  world unit tr (GetAttr name) = Ok tt ->
  has_feature world name tr =
    (Normal (PyBool true), (tr ++ [Ext (GetAttr name)])%list).
Proof.
  intros Hw. unfold has_feature, function, try_except, bind, ext.
  rewrite Hw. reflexivity.
Qed.

(** What the prelude does when the gate closes. *)
Lemma prelude_absent_reached (world : oracle) tr0 info :
  feature_absent world "SetGain" ->
  world bool tr0 (IdentifyDevice device_ip) = Ok true ->
  world DeviceInfo (tr0 ++ [Ext (IdentifyDevice device_ip)])%list
    (GetDeviceInfo device_ip) = Ok info ->
  world unit (tr0 ++ firstn 3 (prelude_events info))%list NewSDK = Ok tt ->
  acquisition_prelude world tr0 =
    (Return (PyBool false),
     (tr0 ++ prelude_events info
          ++ [feature_missing])%list).
Proof.
  intros Habs Hid Hinfo Hnew.
  unfold acquisition_prelude, bind at 1, ext at 1. rewrite Hid. simpl negb. cbv iota.
  unfold bind at 1, ret at 1.
  unfold bind at 1, ext at 1. rewrite Hinfo.
  unfold bind at 1, log at 1.
  unfold bind at 1, ext at 1.
  rewrite <- !app_assoc. simpl app. simpl in Hnew. rewrite Hnew.
  unfold bind at 1.
  match goal with
  | |- context [has_feature world ?n ?t] =>
      destruct (Habs t) as [e [He Ha]];
      rewrite (has_feature_false world n t e He Ha)
  end.
  simpl. unfold bind, log, return_. rewrite <- !app_assoc. reflexivity.
Qed.

(** With SetGain absent the prelude never falls through to the [try]: it
    returns [False] right after an error record, or an earlier call
    raised. *)
Lemma prelude_absent_cases (world : oracle) tr0 :
  feature_absent world "SetGain" ->
  (exists e, fst (acquisition_prelude world tr0) = Raise e) \/
  (fst (acquisition_prelude world tr0) = Return (PyBool false) /\
   exists new msg,
     snd (acquisition_prelude world tr0) = (tr0 ++ new ++ [Log ERROR msg])%list).
Proof.
  intros Habs.
  remember (acquisition_prelude world tr0) as r eqn:Hr.
  unfold acquisition_prelude, bind, ext, log, ret, return_ in Hr.
  destruct (world bool tr0 (IdentifyDevice device_ip)) as [[|]|e0];
    [| |left; exists e0; subst r; reflexivity].
  - cbv beta iota delta [negb] in Hr.
    destruct (world DeviceInfo _ (GetDeviceInfo device_ip)) as [info|e1];
      [|left; exists e1; subst r; reflexivity].
    cbv beta iota in Hr.
    destruct (world unit _ NewSDK) as [[]|e2];
      [|left; exists e2; subst r; reflexivity].
    cbv beta iota in Hr.
    match type of Hr with
    | context [has_feature world ?n ?t] =>
        destruct (Habs t) as [e [He Ha]];
        rewrite (has_feature_false world n t e He Ha) in Hr
    end.
    right. subst r. simpl. split; [reflexivity|].
    eexists (_ :: _ :: _ :: _ :: _ :: nil), _.
    rewrite <- !app_assoc. simpl. reflexivity.
  - right. subst r. simpl. split; [reflexivity|].
    exists [Ext (IdentifyDevice device_ip)], ("Cannot identify device at " ++ device_ip).
    rewrite <- app_assoc. reflexivity.
Qed.

(** When the prelude returns or raises, so does [simple_example], with the
    same trace. *)
Lemma simple_example_stops world tr0 :
  fst (acquisition_prelude world tr0) <> Normal tt ->
  simple_example world tr0 = function (acquisition_prelude world) tr0.
Proof.
  intros H. unfold simple_example, function, bind.
  destruct (acquisition_prelude world tr0) as [[[]|v|e] tr]; simpl in *;
    [congruence | reflexivity | reflexivity].
Qed.

(** C4. A feature whose lookup on the SDK class raises [AttributeError] makes
    [has_feature] return [False].  And when SetGain is absent,
    [simple_example] never invokes Connect; if it returns at all it returns
    [False] with an error record as the last thing logged; and when the
    calls before the feature check succeed (device identified, device info
    and SDK instance obtained) it does return [False], right after logging
    that the required feature is not available. *)
Theorem missing_feature_aborts (world : oracle) :
  (forall name tr e,
     world unit tr (GetAttr name) = Throws e ->
     is_AttributeError e = true ->
     has_feature world name tr =
       (Normal (PyBool false), (tr ++ [Ext (GetAttr name)])%list))
  /\
  (feature_absent world "SetGain" ->
   forall tr0,
     count_calls is_connect (snd (simple_example world tr0))
       = count_calls is_connect tr0
     /\
     (forall v, fst (simple_example world tr0) = Normal v ->
        v = PyBool false /\
        exists new msg,
          snd (simple_example world tr0) = (tr0 ++ new ++ [Log ERROR msg])%list)
     /\
     (forall info,
        world bool tr0 (IdentifyDevice device_ip) = Ok true ->
        world DeviceInfo (tr0 ++ [Ext (IdentifyDevice device_ip)])%list
          (GetDeviceInfo device_ip) = Ok info ->
        world unit (tr0 ++ firstn 3 (prelude_events info))%list NewSDK = Ok tt ->
        simple_example world tr0 =
          (Normal (PyBool false),
           (tr0 ++ prelude_events info
                ++ [feature_missing])%list))).
Proof.
  split; [intros name tr e; apply has_feature_false|].
  intros Habs tr0.
  assert (Hstop : simple_example world tr0 = function (acquisition_prelude world) tr0).
  { apply simple_example_stops.
    destruct (prelude_absent_cases world tr0 Habs) as [[e H]|[H _]];
      rewrite H; discriminate. }
  split; [|split].
  - rewrite Hstop, snd_function.
    destruct (acquisition_prelude_no_connect world tr0) as [new [E C]].
    rewrite E, count_calls_app. lia.
  - intros v Hv. rewrite Hstop in Hv |- *. rewrite snd_function.
    destruct (prelude_absent_cases world tr0 Habs) as [[e H]|[H Htr]];
      unfold function in Hv;
      destruct (acquisition_prelude world tr0) as [[[]|x|e'] tr]; simpl in *;
      try discriminate.
    inversion H; inversion Hv; subst. split; [reflexivity | exact Htr].
  - intros info Hid Hinfo Hnew. rewrite Hstop. unfold function.
    rewrite (prelude_absent_reached world tr0 info Habs Hid Hinfo Hnew).
    reflexivity.
Qed.

(** ** The [try] statement of [simple_example] *)




(** How the [try] statement ends when its body raised an [Exception]. *)
Lemma guarded_acquisition_caught (world : oracle) tr e trb :
  acquisition_body world tr = (Raise e, trb) ->
  is_Exception e = true ->
  guarded_acquisition world tr =
    match world unit (trb ++ [operation_failed e])%list Disconnect with
    | Ok _ => (Return (PyBool false),
               ((trb ++ [operation_failed e]) ++ cleanup_events)%list)
    | Throws e' => (Raise e', ((trb ++ [operation_failed e]) ++ [Ext Disconnect])%list)
    end.
Proof.
  intros Hbody Hexc.
  unfold guarded_acquisition, try_finally, try_except. rewrite Hbody, Hexc.
  unfold acquisition_handler, bind at 1, log at 1, return_.
  rewrite acquisition_cleanup_run. fold (operation_failed e).
  destruct (world unit _ Disconnect); reflexivity.
Qed.

(** C5, as the code has it. An exception of class [Exception] raised in the
    connect/configure/acquire sequence is caught and logged as an error, the
    cleanup then calls Disconnect, and the exception itself never reaches the
    caller: when Disconnect comes back [simple_example] returns [False];
    when Disconnect raises, it is that exception which propagates. *)
Theorem exception_caught_and_reported (world : oracle) tr0 tr e trb :
  acquisition_prelude world tr0 = (Normal tt, tr) ->
  acquisition_body world tr = (Raise e, trb) ->
  is_Exception e = true ->
  let logged := (trb ++ [operation_failed e])%list in
  (exists post,
     snd (simple_example world tr0) = (logged ++ Ext Disconnect :: post)%list)
  /\
  (world unit logged Disconnect = Ok tt ->
   simple_example world tr0 =
     (Normal (PyBool false), (logged ++ cleanup_events)%list))
  /\
  (forall e',
     world unit logged Disconnect = Throws e' ->
     simple_example world tr0 = (Raise e', (logged ++ [Ext Disconnect])%list))
  /\
  (forall e',
     fst (simple_example world tr0) = Raise e' ->
     world unit logged Disconnect = Throws e').
Proof.
  intros Hpre Hbody Hexc logged.
  rewrite (simple_example_enters world tr0 tr Hpre).
  unfold function.
  rewrite (guarded_acquisition_caught world tr e trb Hbody Hexc).
  fold logged.
  destruct (world unit logged Disconnect) as [[]|e1]; simpl.
  - split; [eexists; reflexivity|].
    split; [reflexivity|].
    split; [discriminate|]. intros e' H; discriminate.
  - split; [exists []; reflexivity|].
    split; [discriminate|].
    split; [intros e' H; inversion H; reflexivity|].
    intros e' H; inversion H; reflexivity.
Qed.


(** C6, as the code has it. Disconnect is attempted exactly when the [try]
    statement is entered: the trace of [simple_example] gains one Disconnect
    if the prelude falls through to the [try] and none otherwise.  The
    identification failure returns [False] after its error record with no
    Disconnect; with SetGain absent the prelude never falls through, so no
    Disconnect either; and once the [try] is entered the Disconnect comes
    after everything the body and the handler did, however they ended. *)
Theorem disconnect_follows_try_entry (world : oracle) tr0 :
  count_calls is_disconnect (snd (simple_example world tr0)) =
    count_calls is_disconnect tr0
    + match fst (acquisition_prelude world tr0) with Normal _ => 1 | _ => 0 end
  /\
  (world bool tr0 (IdentifyDevice device_ip) = Ok false ->
   simple_example world tr0 =
     (Normal (PyBool false),
      (tr0 ++ [Ext (IdentifyDevice device_ip); cannot_identify])%list))
  /\
  (feature_absent world "SetGain" ->
   fst (acquisition_prelude world tr0) <> Normal tt /\
   count_calls is_disconnect (snd (simple_example world tr0))
     = count_calls is_disconnect tr0)
  /\
  (forall tr,
     acquisition_prelude world tr0 = (Normal tt, tr) ->
     exists post,
       snd (simple_example world tr0) =
         (snd (try_except (acquisition_body world) is_Exception
                 acquisition_handler tr)
          ++ Ext Disconnect :: post)%list /\
       count_calls is_disconnect post = 0).
Proof.
  assert (Hcount :
    count_calls is_disconnect (snd (simple_example world tr0)) =
      count_calls is_disconnect tr0
      + match fst (acquisition_prelude world tr0) with Normal _ => 1 | _ => 0 end).
  { destruct (acquisition_prelude_no_disconnect world tr0) as [new [E C]].
    destruct (acquisition_prelude world tr0) as [[[]|v|e] tr] eqn:Hpre.
    - rewrite (simple_example_enters world tr0 tr Hpre), snd_function.
      rewrite guarded_acquisition_disconnects_once. simpl in E. subst tr.
      rewrite count_calls_app. simpl. lia.
    - rewrite simple_example_stops, snd_function, Hpre;
        [|rewrite Hpre; discriminate].
      simpl in *. subst tr. rewrite count_calls_app. lia.
    - rewrite simple_example_stops, snd_function, Hpre;
        [|rewrite Hpre; discriminate].
      simpl in *. subst tr. rewrite count_calls_app. lia. }
  split; [exact Hcount|]. split; [|split].
  - intros Hid.
    unfold simple_example, function, acquisition_prelude, bind, ext, log, return_.
    rewrite Hid. simpl. rewrite <- app_assoc. reflexivity.
  - intros Habs.
    assert (Hne : fst (acquisition_prelude world tr0) <> Normal tt).
    { destruct (prelude_absent_cases world tr0 Habs) as [[e H]|[H _]];
        rewrite H; discriminate. }
    split; [exact Hne|]. rewrite Hcount.
    destruct (fst (acquisition_prelude world tr0)) as [[]|v|e];
      [congruence | lia | lia].
  - intros tr Hpre.
    rewrite (simple_example_enters world tr0 tr Hpre), snd_function.
    apply guarded_acquisition_trace.
Qed.

(** * Runs on concrete worlds *)

(** ** Where the code departs from a claim *)

(** C5 as stated fails.  An interrupt during the five seconds of acquisition
    is not an [Exception]: it is not logged and leaves [simple_example] as an
    exception.  And when the connection is refused and Disconnect then raises
    on the unconnected instance, the first exception is logged but
    [simple_example] does not return [False]: the exception of the cleanup
    propagates. *)
Lemma exception_can_escape :
  (acquisition_prelude world_interrupted [] =
     (Normal tt, prelude_events sample_info) /\
   fst (acquisition_body world_interrupted (prelude_events sample_info)) =
     Raise (mkExn KeyboardInterrupt "") /\
   fst (simple_example world_interrupted []) = Raise (mkExn KeyboardInterrupt "") /\
   errors_of (snd (simple_example world_interrupted [])) = []) /\
  (acquisition_prelude world_cleanup_fails [] =
     (Normal tt, prelude_events sample_info) /\
   fst (acquisition_body world_cleanup_fails (prelude_events sample_info)) =
     Raise (mkExn ClrException "Connection refused") /\
   fst (simple_example world_cleanup_fails []) =
     Raise (mkExn ClrException "Not connected") /\
   errors_of (snd (simple_example world_cleanup_fails [])) =
     ["Error during operation: Connection refused"]).
Proof. repeat split; reflexivity. Qed.

(** C6 as stated fails.  When the device is not identified, and when SetGain
    is missing, [simple_example] returns [False] from before the [try]:
    Disconnect is never called. *)
Lemma early_returns_skip_disconnect :
  (simple_example world_no_device [] =
     (Normal (PyBool false),
      [Ext (IdentifyDevice "192.168.137.123");
       Log ERROR "Cannot identify device at 192.168.137.123"]) /\
   count_calls is_disconnect (snd (simple_example world_no_device [])) = 0) /\
  (fst (simple_example world_no_setgain []) = Normal (PyBool false) /\
   errors_of (snd (simple_example world_no_setgain [])) =
     ["Required feature 'SetGain' is not available in this SDK version."] /\
   count_calls is_disconnect (snd (simple_example world_no_setgain [])) = 0).
Proof. repeat split; reflexivity. Qed.

(** C9 as stated fails.  An interrupt during the reflection calls is not an
    [Exception] and leaves [check_sdk_version] as an exception; and
    [import System] stands before the [try], so its failure is not caught
    either. *)
Lemma check_sdk_version_can_raise :
  check_sdk_version world_reflection_interrupted "1.0.0" [] =
    (Raise (mkExn KeyboardInterrupt ""), [Ext ImportSystem; Ext GetAssembly]) /\
  check_sdk_version world_no_system "1.0.0" [] =
    (Raise (mkExn ImportError "No module named 'System'"), [Ext ImportSystem]).
Proof. split; reflexivity. Qed.

(** ** The theorems at work *)



Lemma world_no_setgain_absent : feature_absent world_no_setgain "SetGain".
Proof. intros tr. eexists. split; reflexivity. Defined.

Lemma happy_world_reports v tr : reports (happy_world v) tr v.
Proof. repeat split. Defined.

(** The connection is refused: one Disconnect, after the failure. *)
Lemma disconnect_once_on_exception_witness :
  count_calls is_disconnect (snd (simple_example world_connect_fails [])) = 0 + 1 /\
  count_calls is_disconnect
    (prelude_events sample_info ++ [Ext (Connect device_ip)])%list = 0 /\
  exists post,
    snd (simple_example world_connect_fails []) =
      ((prelude_events sample_info ++ [Ext (Connect device_ip)]) ++ post)%list /\
    count_calls is_disconnect post = 1.
Proof.
  apply (disconnect_once_on_exception world_connect_fails []
           (prelude_events sample_info)
           (mkExn ClrException "Connection refused")
           (prelude_events sample_info ++ [Ext (Connect device_ip)])%list);
    reflexivity.
Defined.

(** The relative folder of the script on a file system without it. *)
Lemma load_sdk_dlls_missing_folder_witness :
  load_sdk_dlls sdk_1_2_3 fs_none script_file sdk_folder [] =
    (Raise (mkExn FileNotFoundError
              "Dependencies directory not found: /opt/a1052/PythonExample/..\sdk"),
     ([relative_warning sdk_folder]
      ++ [Log ERROR
            "Dependencies directory does not exist: /opt/a1052/PythonExample/..\sdk"])%list)
  /\ count_calls is_add_reference
       (snd (load_sdk_dlls sdk_1_2_3 fs_none script_file sdk_folder [])) = 0.
Proof.
  apply (load_sdk_dlls_missing_folder sdk_1_2_3 fs_none script_file sdk_folder []
           "/opt/a1052/PythonExample/..\sdk" [relative_warning sdk_folder]);
    reflexivity.
Defined.

(** SDK 0.9.0 against the minimum 1.0.0, in the script run as main. *)
Lemma version_below_minimum_witness :
  check_sdk_version world_old_sdk "1.0.0" [] =
    (Normal PyNone,
     [Ext ImportSystem; Ext GetAssembly; Ext AssemblyVersion;
      Log INFO "A10x SDK Version: 0.9.0";
      Log ERROR "Version check failed: SDK version 0.9.0 is below required 1.0.0"])
  /\
  exists rest,
    snd (script world_old_sdk fs_all script_file "__main__" []) =
      ((snd (module_load world_old_sdk fs_all script_file [])
        ++ reflection_events (mkVersion 0 9 0)
        ++ [version_check_failed
              (mkExn PlainException (below_required (mkVersion 0 9 0) "1.0.0"));
            cannot_verify])
       ++ Log INFO "Starting simple A10x SDK example..."
       :: Ext (IdentifyDevice device_ip) :: rest)%list.
Proof.
  split.
  - apply (version_below_minimum world_old_sdk "1.0.0" (mkVersion 0 9 0) []
             (happy_world_reports _ _) eq_refl).
  - pose proof (version_below_minimum world_old_sdk "1.0.0" (mkVersion 0 9 0)
                  (snd (module_load world_old_sdk fs_all script_file []))
                  (happy_world_reports _ _) eq_refl) as [_ H].
    destruct (H eq_refl fs_all script_file "__main__" [] eq_refl) as [_ H'].
    exact (H' eq_refl).
Defined.

(** An SDK without SetGain: [has_feature] is false, no Connect. *)
Lemma missing_feature_aborts_witness :
  has_feature world_no_setgain "SetGain" [] =
    (Normal (PyBool false), [Ext (GetAttr "SetGain")]) /\
  count_calls is_connect (snd (simple_example world_no_setgain [])) = 0 /\
  simple_example world_no_setgain [] =
    (Normal (PyBool false), (prelude_events sample_info ++ [feature_missing])%list).
Proof.
  destruct (missing_feature_aborts world_no_setgain) as [Hf Hs].
  split; [exact (Hf "SetGain" [] _ eq_refl eq_refl)|].
  destruct (Hs world_no_setgain_absent []) as [Hc [_ Hr]].
  split; [exact Hc|].
  exact (Hr sample_info eq_refl eq_refl eq_refl).
Defined.

(** The connection is refused: logged, cleaned up, [False]. *)
Lemma exception_caught_and_reported_witness :
  simple_example world_connect_fails [] =
    (Normal (PyBool false),
     (((prelude_events sample_info ++ [Ext (Connect device_ip)])
       ++ [operation_failed (mkExn ClrException "Connection refused")])
      ++ cleanup_events)%list).
Proof.
  destruct (exception_caught_and_reported world_connect_fails []
              (prelude_events sample_info)
              (mkExn ClrException "Connection refused")
              (prelude_events sample_info ++ [Ext (Connect device_ip)])%list
              eq_refl eq_refl eq_refl) as [_ [H _]].
  exact (H eq_refl).
Defined.

(** No device, no SetGain, and a refused connection. *)
Lemma disconnect_follows_try_entry_witness :
  simple_example world_no_device [] =
    (Normal (PyBool false), [Ext (IdentifyDevice device_ip); cannot_identify]) /\
  count_calls is_disconnect (snd (simple_example world_no_setgain [])) = 0 /\
  exists post,
    snd (simple_example world_connect_fails []) =
      (snd (try_except (acquisition_body world_connect_fails) is_Exception
              acquisition_handler (prelude_events sample_info))
       ++ Ext Disconnect :: post)%list /\
    count_calls is_disconnect post = 0.
Proof.
  split; [|split].
  - destruct (disconnect_follows_try_entry world_no_device []) as [_ [H _]].
    exact (H eq_refl).
  - destruct (disconnect_follows_try_entry world_no_setgain []) as [_ [_ [H _]]].
    exact (proj2 (H world_no_setgain_absent)).
  - destruct (disconnect_follows_try_entry world_connect_fails []) as [_ [_ [_ H]]].
    exact (H (prelude_events sample_info) eq_refl).
Defined.

(** An assembly that reports 10.0.0 against the minimum "9.0.0". *)
Lemma lexical_version_comparison_witness :
  check_sdk_version (happy_world (mkVersion 10 0 0)) "9.0.0" [] =
    (Normal PyNone,
     [Ext ImportSystem; Ext GetAssembly; Ext AssemblyVersion;
      Log INFO "A10x SDK Version: 10.0.0";
      Log ERROR "Version check failed: SDK version 10.0.0 is below required 9.0.0"]).
Proof.
  destruct lexical_version_comparison as [_ [_ [_ [_ [_ H]]]]].
  exact (H (happy_world (mkVersion 10 0 0)) [] (happy_world_reports _ _)).
Defined.


(** A reflection failure of class [Exception] is caught. *)
Lemma check_sdk_version_catches_witness :
  check_sdk_version
    (failing_at is_reflection (mkExn ClrException "Assembly not loaded") sdk_1_2_3)
    "1.0.0" [] =
    (Normal PyNone,
     ([Ext ImportSystem; Ext GetAssembly]
      ++ [version_check_failed (mkExn ClrException "Assembly not loaded")])%list).
Proof.
  destruct (check_sdk_version_catches
              (failing_at is_reflection (mkExn ClrException "Assembly not loaded")
                 sdk_1_2_3)
              "1.0.0" [] eq_refl) as [H _].
  exact (H (mkExn ClrException "Assembly not loaded")
           [Ext ImportSystem; Ext GetAssembly] eq_refl eq_refl).
Defined.

(** The relative folder of the script, and an absolute one. *)
Lemma load_sdk_dlls_resolution_witness :
  load_sdk_dlls sdk_1_2_3 fs_all script_file sdk_folder [] =
    (Normal PyNone,
     ([relative_warning sdk_folder]
      ++ references_of fs_all "/opt/a1052/PythonExample/..\sdk")%list)
  /\
  load_sdk_dlls sdk_1_2_3 fs_all script_file "/opt/a1052/sdk" [] =
    (Normal PyNone, ([] ++ references_of fs_all "/opt/a1052/sdk")%list).
Proof.
  split.
  - destruct (load_sdk_dlls_resolution sdk_1_2_3 fs_all script_file sdk_folder [])
      as [H _].
    destruct (H eq_refl) as [_ [_ [_ H']]].
    exact (H' eq_refl (fun _ _ => eq_refl)).
  - destruct (load_sdk_dlls_resolution sdk_1_2_3 fs_all script_file
                "/opt/a1052/sdk" []) as [_ H].
    destruct (H eq_refl) as [_ [_ [_ H']]].
    exact (H' eq_refl (fun _ _ => eq_refl)).
Defined.

(** * Further properties of the script *)

(** ** Helper facts on traces and on the blocks of [simple_example] *)

Lemma errors_of_app (a b : trace) :
  errors_of (a ++ b)%list = (errors_of a ++ errors_of b)%list.
Proof.
  induction a as [|ev a IH]; simpl; [reflexivity|].
  destruct ev as [T c|[] msg]; simpl; rewrite IH; reflexivity.
Qed.

Lemma calls_of_app (a b : trace) :
  calls_of (a ++ b)%list = (calls_of a ++ calls_of b)%list.
Proof.
  induction a as [|ev a IH]; simpl; [reflexivity|].
  destruct ev; simpl; rewrite IH; reflexivity.
Qed.

(** The body of the [try] never falls through, and it returns only [True],
    after the whole sequence. *)
Lemma acquisition_body_returns (world : oracle) tr :
  (fst (acquisition_body world tr) = Return (PyBool true) /\
   snd (acquisition_body world tr) = (tr ++ body_events)%list) \/
  (exists e, fst (acquisition_body world tr) = Raise e).
Proof.
  unfold acquisition_body, bind, ext, log, return_.
  repeat match goal with
  | |- context [world ?T ?t ?c] =>
      destruct (world T t c) as [[]|?e]; cbv beta iota;
      [|right; eexists; reflexivity]
  end.
  left. split; [reflexivity|]. simpl. rewrite <- !app_assoc. reflexivity.
Qed.

(** The body of the [try] attempts Connect first, and only once. *)
Lemma acquisition_body_connects_once (world : oracle) tr :
  exists rest,
    snd (acquisition_body world tr) =
      (tr ++ Ext (Connect device_ip) :: rest)%list /\
    count_calls is_connect rest = 0.
Proof.
  unfold acquisition_body. unfold bind at 1, ext at 1.
  destruct (world unit tr (Connect device_ip)) as [[]|e];
    [|exists []; split; reflexivity].
  match goal with
  | |- context [bind ?m ?k ?t] =>
      assert (H : silent is_connect (bind m k)) by silence;
      destruct (H t) as [rest [E C]]
  end.
  exists rest. rewrite E, <- app_assoc. split; [reflexivity | exact C].
Qed.

(** How the prelude can end: it falls through after its five events, the
    device identified and SetGain found; or it returns [False] right after
    an error record; or one of its calls raised, and then no error was
    logged. *)
Lemma acquisition_prelude_cases (world : oracle) tr0 :
  (exists info,
     acquisition_prelude world tr0 =
       (Normal tt, (tr0 ++ prelude_events info)%list) /\
     world bool tr0 (IdentifyDevice device_ip) = Ok true /\
     world unit (tr0 ++ firstn 4 (prelude_events info))%list (GetAttr "SetGain")
       = Ok tt)
  \/
  (fst (acquisition_prelude world tr0) = Return (PyBool false) /\
   exists new msg,
     snd (acquisition_prelude world tr0) = (tr0 ++ new ++ [Log ERROR msg])%list)
  \/
  (exists e,
     fst (acquisition_prelude world tr0) = Raise e /\
     errors_of (snd (acquisition_prelude world tr0)) = errors_of tr0).
Proof.
  remember (acquisition_prelude world tr0) as r eqn:Hr.
  unfold acquisition_prelude, has_feature, function, try_except,
    bind, ext, log, ret, return_ in Hr.
  destruct (world bool tr0 (IdentifyDevice device_ip)) as [[|]|e0] eqn:Hid.
  - cbv beta iota delta [negb] in Hr.
    destruct (world DeviceInfo _ (GetDeviceInfo device_ip)) as [info|e1].
    + cbv beta iota in Hr.
      destruct (world unit _ NewSDK) as [[]|e2].
      * cbv beta iota in Hr.
        destruct (world unit _ (GetAttr "SetGain")) as [[]|e3] eqn:Hattr.
        -- left. exists info. subst r. simpl.
           rewrite <- !app_assoc in *. simpl in *.
           split; [reflexivity|]. split; [reflexivity | exact Hattr].
        -- destruct (is_AttributeError e3); subst r; simpl.
           ++ right; left. split; [reflexivity|].
              eexists (_ :: _ :: _ :: _ :: _ :: nil), _.
              rewrite <- !app_assoc. simpl. reflexivity.
           ++ right; right. exists e3. split; [reflexivity|].
              rewrite <- !app_assoc, errors_of_app. simpl. apply app_nil_r.
      * right; right. exists e2. subst r. split; [reflexivity|]. simpl.
        rewrite <- !app_assoc, errors_of_app. simpl. apply app_nil_r.
    + right; right. exists e1. subst r. split; [reflexivity|]. simpl.
      rewrite <- !app_assoc, errors_of_app. simpl. apply app_nil_r.
  - right; left. subst r. simpl. split; [reflexivity|].
    exists [Ext (IdentifyDevice device_ip)], ("Cannot identify device at " ++ device_ip).
    rewrite <- app_assoc. reflexivity.
  - right; right. exists e0. subst r. split; [reflexivity|]. simpl.
    rewrite errors_of_app. simpl. apply app_nil_r.
Qed.

(** What the [try] statement adds to the trace: what the body and the
    handler recorded, in which Connect occurs once and Disconnect never, then
    Disconnect, then at most the record of the disconnection. *)
Lemma guarded_acquisition_shape (world : oracle) tr :
  exists mid post,
    snd (guarded_acquisition world tr) =
      (tr ++ Ext (Connect device_ip) :: mid ++ Ext Disconnect :: post)%list /\
    count_calls is_connect mid = 0 /\
    count_calls is_disconnect mid = 0 /\
    (post = [] \/ post = [Log INFO "Disconnected from device"]).
Proof.
  unfold guarded_acquisition, try_finally.
  destruct (acquisition_body_connects_once world tr) as [rest [Eb Cb]].
  destruct (acquisition_body_no_disconnect world tr) as [new [En Cn]].
  assert (Hnew : new = Ext (Connect device_ip) :: rest).
  { rewrite En in Eb. apply app_inv_head in Eb. exact Eb. }
  subst new. simpl in Cn.
  unfold try_except.
  destruct (acquisition_body world tr) as [[[]|v|e] trb] eqn:Hb;
    simpl in Eb; subst trb.
  1,2: rewrite acquisition_cleanup_run;
       destruct (world unit _ Disconnect) as [[]|e']; simpl;
       exists rest; eexists; rewrite <- app_assoc; simpl;
       (split; [reflexivity|]); (split; [exact Cb|]); (split; [exact Cn|]);
       [right | left]; reflexivity.
  destruct (is_Exception e).
  - unfold acquisition_handler, bind, log, return_. simpl.
    rewrite acquisition_cleanup_run.
    destruct (world unit _ Disconnect) as [[]|e']; simpl;
      exists (rest ++ [operation_failed e])%list; eexists;
      rewrite <- !app_assoc; simpl; rewrite <- ?app_assoc; simpl;
      (split; [reflexivity|]); rewrite !count_calls_app; simpl;
      (split; [lia|]); (split; [lia|]); [right | left]; reflexivity.
  - rewrite acquisition_cleanup_run.
    destruct (world unit _ Disconnect) as [[]|e']; simpl;
      exists rest; eexists; rewrite <- app_assoc; simpl;
      (split; [reflexivity|]); (split; [exact Cb|]); (split; [exact Cn|]);
      [right | left]; reflexivity.
Qed.

(** Every way [simple_example] can end: [True] after the whole sequence,
    [False] with an error record logged on the way, or an exception. *)
Lemma simple_example_outcomes (world : oracle) tr0 :
  (exists info,
     simple_example world tr0 =
       (Normal (PyBool true),
        (tr0 ++ prelude_events info ++ body_events ++ cleanup_events)%list))
  \/
  (exists before msg after,
     simple_example world tr0 =
       (Normal (PyBool false),
        (tr0 ++ before ++ Log ERROR msg :: after)%list))
  \/
  (exists e, fst (simple_example world tr0) = Raise e).
Proof.
  destruct (acquisition_prelude_cases world tr0)
    as [[info [Hpre _]] | [[Hret [new [msg Htr]]] | [e [Hraise _]]]].
  - rewrite (simple_example_enters world tr0 _ Hpre).
    unfold function, guarded_acquisition, try_finally, try_except.
    set (tr := (tr0 ++ prelude_events info)%list).
    destruct (acquisition_body_returns world tr) as [[Hf Hs] | [e Hf]];
      destruct (acquisition_body_no_disconnect world tr) as [n1 [E1 _]];
      destruct (acquisition_body world tr) as [out trb]; simpl in *; subst out.
    + subst trb. rewrite acquisition_cleanup_run.
      destruct (world unit _ Disconnect) as [[]|e'].
      * left. exists info. unfold tr. rewrite <- !app_assoc. reflexivity.
      * right; right. exists e'. reflexivity.
    + destruct (is_Exception e).
      * unfold acquisition_handler, bind, log, return_. simpl.
        rewrite acquisition_cleanup_run.
        destruct (world unit _ Disconnect) as [[]|e'].
        -- right; left.
           exists (prelude_events info ++ n1)%list,
             ("Error during operation: " ++ exn_str e), cleanup_events.
           rewrite E1. unfold tr. rewrite <- !app_assoc. reflexivity.
        -- right; right. exists e'. reflexivity.
      * rewrite acquisition_cleanup_run.
        destruct (world unit _ Disconnect) as [[]|e'];
          right; right; eexists; reflexivity.
  - right; left. exists new, msg, [].
    rewrite simple_example_stops; [|rewrite Hret; discriminate].
    unfold function.
    destruct (acquisition_prelude world tr0) as [out tr]; simpl in *.
    subst out tr. reflexivity.
  - right; right. exists e.
    rewrite simple_example_stops; [|rewrite Hraise; discriminate].
    unfold function.
    destruct (acquisition_prelude world tr0) as [out tr]; simpl in *.
    subst out. reflexivity.
Qed.

(** ** Sequences that stop at the first failure *)

Lemma run_sequence_succeeds (world : oracle) evs :
  forall tr, calls_succeed world tr evs ->
             run_sequence world tr evs = (None, (tr ++ evs)%list).
Proof.
  induction evs as [|ev evs IH]; intros tr H; simpl.
  - rewrite app_nil_r. reflexivity.
  - destruct H as [H1 H2]. rewrite H1, (IH _ H2), <- app_assoc. reflexivity.
Qed.

Lemma run_sequence_none (world : oracle) evs :
  forall tr t, run_sequence world tr evs = (None, t) ->
               calls_succeed world tr evs.
Proof.
  induction evs as [|ev evs IH]; intros tr t H; simpl in *; [exact I|].
  destruct (thrown world tr ev) eqn:E; [discriminate|].
  split; [reflexivity | exact (IH _ _ H)].
Qed.

Lemma run_sequence_fails (world : oracle) pre :
  forall tr T (c : call T) post e,
    calls_succeed world tr pre ->
    world T (tr ++ pre)%list c = Throws e ->
    run_sequence world tr (pre ++ Ext c :: post)%list =
      (Some e, (tr ++ pre ++ [Ext c])%list).
Proof.
  induction pre as [|ev pre IH]; intros tr T c post e Hok Hthrow; simpl.
  - rewrite app_nil_r in Hthrow. rewrite Hthrow. reflexivity.
  - destruct Hok as [H1 H2]. rewrite H1.
    rewrite (IH (tr ++ [ev])%list T c post e H2);
      [|rewrite <- app_assoc; exact Hthrow].
    rewrite <- app_assoc. reflexivity.
Qed.

(** ** [has_feature], lines 43-49 *)

(** X1. [has_feature] looks the name up once.  It returns [True] when the
    lookup succeeds and [False] when it raises an [AttributeError]; any
    other exception of the lookup is not caught and leaves the function. *)
Theorem has_feature_outcomes (world : oracle) name tr :
  snd (has_feature world name tr) = (tr ++ [Ext (GetAttr name)])%list /\
  match world unit tr (GetAttr name) with
  | Ok _ => fst (has_feature world name tr) = Normal (PyBool true)
  | Throws e =>
      if is_AttributeError e
      then fst (has_feature world name tr) = Normal (PyBool false)
      else fst (has_feature world name tr) = Raise e
  end.
Proof.
  unfold has_feature, function, try_except, bind, ext, return_.
  destruct (world unit tr (GetAttr name)) as [[]|e]; simpl.
  - split; reflexivity.
  - destruct (is_AttributeError e); split; reflexivity.
Qed.

(** ** [simple_example], lines 81-154 *)

(** X2. The body of the [try] is the fixed sequence of its fourteen events,
    run in the order of the source and stopped at the first call that
    raises.  When every call of the sequence comes back, all fourteen events
    are recorded and the body returns [True], and only then does it return.
    When a call raises while all the calls before it came back, the body
    ends with that exception, having recorded the events up to that call and
    nothing after it: no call is retried, skipped or made later. *)
Theorem acquisition_body_stops_at_first_failure (world : oracle) tr :
  acquisition_body world tr =
    match run_sequence world tr body_events with
    | (None, t) => (Return (PyBool true), t)
    | (Some e, t) => (Raise e, t)
    end
  /\
  (calls_succeed world tr body_events ->
   acquisition_body world tr =
     (Return (PyBool true), (tr ++ body_events)%list))
  /\
  (forall v, fst (acquisition_body world tr) = Return v ->
             calls_succeed world tr body_events)
  /\
  (forall pre T (c : call T) post e,
     body_events = (pre ++ Ext c :: post)%list ->
     calls_succeed world tr pre ->
     world T (tr ++ pre)%list c = Throws e ->
     acquisition_body world tr = (Raise e, (tr ++ pre ++ [Ext c])%list)).
Proof.
  assert (Hrun : acquisition_body world tr =
                 match run_sequence world tr body_events with
                 | (None, t) => (Return (PyBool true), t)
                 | (Some e, t) => (Raise e, t)
                 end).
  { unfold acquisition_body, bind, ext, log, return_, body_events.
    cbn [run_sequence thrown].
    repeat match goal with
    | |- context [world ?T ?t ?c] =>
        destruct (world T t c) as [[]|?e]; cbv beta iota; try reflexivity
    end. }
  split; [exact Hrun|]. split; [|split].
  - intros Hok. rewrite Hrun, (run_sequence_succeeds world _ _ Hok). reflexivity.
  - intros v Hv. rewrite Hrun in Hv.
    destruct (run_sequence world tr body_events) as [[e|] t] eqn:E;
      [discriminate|].
    exact (run_sequence_none world _ _ _ E).
  - intros pre T c post e Heq Hok Hthrow.
    rewrite Hrun, Heq, (run_sequence_fails world pre tr T c post e Hok Hthrow).
    reflexivity.
Qed.

(** X3. In every run of [simple_example], either neither Connect nor
    Disconnect is attempted, or Connect is attempted exactly once and
    Disconnect exactly once, after it: what the run records splits into a
    part without either call, the Connect, a part without either call, the
    Disconnect, and a part without either call. *)
Theorem connect_disconnect_paired (world : oracle) tr0 :
  exists new,
    snd (simple_example world tr0) = (tr0 ++ new)%list /\
    ((count_calls is_connect new = 0 /\ count_calls is_disconnect new = 0)
     \/
     exists before mid post,
       new = (before ++ Ext (Connect device_ip) :: mid
                     ++ Ext Disconnect :: post)%list /\
       count_calls is_connect before = 0 /\
       count_calls is_disconnect before = 0 /\
       count_calls is_connect mid = 0 /\
       count_calls is_disconnect mid = 0 /\
       count_calls is_connect post = 0 /\
       count_calls is_disconnect post = 0).
Proof.
  destruct (acquisition_prelude_no_connect world tr0) as [n0 [E0 C0]].
  destruct (acquisition_prelude_no_disconnect world tr0) as [n0' [E0' D0]].
  assert (n0' = n0) by (rewrite E0 in E0'; apply app_inv_head in E0'; auto).
  subst n0'.
  destruct (acquisition_prelude world tr0) as [[[]|v|e] tr] eqn:Hpre;
    simpl in E0; subst tr.
  - rewrite (simple_example_enters world tr0 _ Hpre), snd_function.
    destruct (guarded_acquisition_shape world (tr0 ++ n0)%list)
      as [mid [post [E [Cm [Dm Hpost]]]]].
    exists (n0 ++ Ext (Connect device_ip) :: mid ++ Ext Disconnect :: post)%list.
    split; [rewrite E, <- app_assoc; reflexivity|].
    right. exists n0, mid, post.
    split; [reflexivity|].
    repeat (split; [assumption|]).
    destruct Hpost; subst post; split; reflexivity.
  - exists n0. rewrite simple_example_stops, snd_function, Hpre;
      [|rewrite Hpre; discriminate].
    split; [reflexivity | left; split; assumption].
  - exists n0. rewrite simple_example_stops, snd_function, Hpre;
      [|rewrite Hpre; discriminate].
    split; [reflexivity | left; split; assumption].
Qed.

(** X4. Disconnect, when it is called, is the last call [simple_example]
    makes: what follows it in the trace contains no call at all. *)
Theorem no_call_after_disconnect (world : oracle) tr0 :
  exists new,
    snd (simple_example world tr0) = (tr0 ++ new)%list /\
    (count_calls is_disconnect new = 0 \/
     exists before post,
       new = (before ++ Ext Disconnect :: post)%list /\
       count_calls is_disconnect before = 0 /\
       calls_of post = []).
Proof.
  destruct (acquisition_prelude_no_disconnect world tr0) as [n0 [E0 D0]].
  destruct (acquisition_prelude world tr0) as [[[]|v|e] tr] eqn:Hpre;
    simpl in E0; subst tr.
  - rewrite (simple_example_enters world tr0 _ Hpre), snd_function.
    destruct (guarded_acquisition_shape world (tr0 ++ n0)%list)
      as [mid [post [E [Cm [Dm Hpost]]]]].
    exists (n0 ++ Ext (Connect device_ip) :: mid ++ Ext Disconnect :: post)%list.
    split; [rewrite E, <- app_assoc; reflexivity|].
    right. exists (n0 ++ Ext (Connect device_ip) :: mid)%list, post.
    split; [rewrite <- app_assoc; reflexivity|].
    split; [rewrite count_calls_app; simpl; lia|].
    destruct Hpost; subst post; reflexivity.
  - exists n0. rewrite simple_example_stops, snd_function, Hpre;
      [|rewrite Hpre; discriminate].
    split; [reflexivity | left; exact D0].
  - exists n0. rewrite simple_example_stops, snd_function, Hpre;
      [|rewrite Hpre; discriminate].
    split; [reflexivity | left; exact D0].
Qed.

(** X5. [simple_example] returns a Boolean whenever it returns.  It returns
    [True] only after the whole sequence, from identification to the record
    of the disconnection, went through; and it returns [False] only with an
    error record logged during the run. *)
Theorem true_only_after_full_sequence (world : oracle) tr0 v :
  fst (simple_example world tr0) = Normal v ->
  (v = PyBool true /\
   exists info,
     snd (simple_example world tr0) =
       (tr0 ++ prelude_events info ++ body_events ++ cleanup_events)%list)
  \/
  (v = PyBool false /\
   exists before msg after,
     snd (simple_example world tr0) =
       (tr0 ++ before ++ Log ERROR msg :: after)%list).
Proof.
  intros Hv.
  destruct (simple_example_outcomes world tr0)
    as [[info H] | [[before [msg [after H]]] | [e H]]].
  - rewrite H in Hv |- *. inversion Hv. left.
    split; [reflexivity | exists info; reflexivity].
  - rewrite H in Hv |- *. inversion Hv. right.
    split; [reflexivity | exists before, msg, after; reflexivity].
  - rewrite H in Hv. discriminate.
Qed.

(** X6. Connect is attempted only behind the two gates: if a run of
    [simple_example] attempts Connect, the device answered the
    identification with [True] and the lookup of SetGain succeeded. *)
Theorem connect_only_behind_gates (world : oracle) tr0 :
  count_calls is_connect (snd (simple_example world tr0))
    <> count_calls is_connect tr0 ->
  exists info,
    world bool tr0 (IdentifyDevice device_ip) = Ok true /\
    world unit (tr0 ++ firstn 4 (prelude_events info))%list (GetAttr "SetGain")
      = Ok tt.
Proof.
  intros Hc.
  destruct (acquisition_prelude_cases world tr0)
    as [[info [_ [Hid Hattr]]] | [[Hret _] | [e [Hraise _]]]].
  - exists info. split; assumption.
  - exfalso. apply Hc.
    rewrite simple_example_stops, snd_function; [|rewrite Hret; discriminate].
    destruct (acquisition_prelude_no_connect world tr0) as [n0 [E0 C0]].
    rewrite E0, count_calls_app. lia.
  - exfalso. apply Hc.
    rewrite simple_example_stops, snd_function; [|rewrite Hraise; discriminate].
    destruct (acquisition_prelude_no_connect world tr0) as [n0 [E0 C0]].
    rewrite E0, count_calls_app. lia.
Qed.

(** X7. An exception that is not of class [Exception] (an interrupt, a
    [SystemExit]) raised in the body of the [try] is not logged; the cleanup
    still calls Disconnect, and then the exception leaves [simple_example],
    unless Disconnect raises, in which case that exception leaves it. *)
Theorem interrupt_passes_cleanup (world : oracle) tr0 tr e trb :
  acquisition_prelude world tr0 = (Normal tt, tr) ->
  acquisition_body world tr = (Raise e, trb) ->
  is_Exception e = false ->
  (world unit trb Disconnect = Ok tt ->
   simple_example world tr0 = (Raise e, (trb ++ cleanup_events)%list)) /\
  (forall e',
     world unit trb Disconnect = Throws e' ->
     simple_example world tr0 = (Raise e', (trb ++ [Ext Disconnect])%list)) /\
  errors_of (snd (simple_example world tr0)) = errors_of trb.
Proof.
  intros Hpre Hbody Hexc.
  rewrite (simple_example_enters world tr0 tr Hpre).
  unfold function, guarded_acquisition, try_finally, try_except.
  rewrite Hbody, Hexc, acquisition_cleanup_run.
  destruct (world unit trb Disconnect) as [[]|e1]; simpl.
  - split; [reflexivity|]. split; [discriminate|].
    rewrite errors_of_app. simpl. apply app_nil_r.
  - split; [discriminate|]. split; [intros e' H; inversion H; reflexivity|].
    rewrite errors_of_app. simpl. apply app_nil_r.
Qed.

(** X8. An exception raised before the [try] (by the identification, by
    the device info call, by the constructor, or by a lookup of SetGain that
    fails with something other than [AttributeError]) leaves
    [simple_example] as it is: no error record is logged, and neither
    Connect nor Disconnect is called. *)
Theorem prelude_exception_escapes (world : oracle) tr0 e :
  fst (acquisition_prelude world tr0) = Raise e ->
  simple_example world tr0 = (Raise e, snd (acquisition_prelude world tr0)) /\
  errors_of (snd (simple_example world tr0)) = errors_of tr0 /\
  count_calls is_connect (snd (simple_example world tr0))
    = count_calls is_connect tr0 /\
  count_calls is_disconnect (snd (simple_example world tr0))
    = count_calls is_disconnect tr0.
Proof.
  intros Hraise.
  assert (Hse : simple_example world tr0 =
                (Raise e, snd (acquisition_prelude world tr0))).
  { rewrite simple_example_stops; [|rewrite Hraise; discriminate].
    unfold function.
    destruct (acquisition_prelude world tr0) as [out tr]; simpl in *.
    subst out. reflexivity. }
  rewrite Hse. simpl. split; [reflexivity|]. split; [|split].
  - destruct (acquisition_prelude_cases world tr0)
      as [[info [Hpre _]] | [[Hret _] | [e' [_ Herr]]]].
    + rewrite Hpre in Hraise. discriminate.
    + rewrite Hret in Hraise. discriminate.
    + exact Herr.
  - destruct (acquisition_prelude_no_connect world tr0) as [n0 [E0 C0]].
    rewrite E0, count_calls_app. lia.
  - destruct (acquisition_prelude_no_disconnect world tr0) as [n0 [E0 C0]].
    rewrite E0, count_calls_app. lia.
Qed.

(** ** The version comparison, lines 57-62 *)

Lemma append_empty_r (s : string) : s ++ "" = s.
Proof. induction s as [|c s IH]; simpl; [reflexivity | rewrite IH; reflexivity]. Qed.

Lemma str_lt_irrefl s : str_lt s s = false.
Proof.
  induction s as [|c s IH]; simpl; [reflexivity|].
  rewrite Nat.ltb_irrefl. exact IH.
Qed.

(** The decimal digits of a positive number do not start with a zero. *)
Lemma pos_to_uint_no_leading_zero p d : Pos.to_uint p <> Decimal.D0 d.
Proof.
  intros E.
  pose proof (DecimalPos.Unsigned.to_of (Pos.to_uint p)) as H.
  rewrite DecimalPos.Unsigned.of_to in H. simpl in H.
  rewrite E in H. unfold Decimal.unorm in H. simpl in H.
  destruct (Decimal.nzhead d) eqn:Hd.
  - apply (DecimalPos.Unsigned.to_uint_nonzero p). rewrite E. exact H.
  - apply (DecimalFacts.nzhead_nonzero d d). rewrite Hd. congruence.
  - discriminate. - discriminate. - discriminate. - discriminate.
  - discriminate. - discriminate. - discriminate. - discriminate.
  - discriminate.
Qed.

(** A digit string is empty or starts with a character from '0' to '9'. *)
Lemma string_of_uint_head d :
  NilEmpty.string_of_uint d = "" \/
  exists c r, NilEmpty.string_of_uint d = String c r /\ 48 <= nat_of_ascii c <= 57.
Proof.
  destruct d; [left; reflexivity|..]; right; eexists; eexists;
    (split; [reflexivity | vm_compute; lia]).
Qed.

(** The decimal string of a positive number starts with a character from
    '1' to '9', followed by nothing or by a digit. *)
Lemma str_of_int_pos_head p :
  exists c rest,
    str_of_int (Zpos p) = String c rest /\
    49 <= nat_of_ascii c <= 57 /\
    (rest = "" \/
     exists c' r, rest = String c' r /\ 48 <= nat_of_ascii c' <= 57).
Proof.
  unfold str_of_int. simpl Z.to_int.
  destruct (Pos.to_uint p) as [|d|d|d|d|d|d|d|d|d|d] eqn:E.
  - exfalso. exact (DecimalPos.Unsigned.to_uint_nonnil p E).
  - exfalso. exact (pos_to_uint_no_leading_zero p d E).
  - eexists; exists (NilEmpty.string_of_uint d).
    split; [reflexivity|]. split; [vm_compute; lia | apply string_of_uint_head].
  - eexists; exists (NilEmpty.string_of_uint d).
    split; [reflexivity|]. split; [vm_compute; lia | apply string_of_uint_head].
  - eexists; exists (NilEmpty.string_of_uint d).
    split; [reflexivity|]. split; [vm_compute; lia | apply string_of_uint_head].
  - eexists; exists (NilEmpty.string_of_uint d).
    split; [reflexivity|]. split; [vm_compute; lia | apply string_of_uint_head].
  - eexists; exists (NilEmpty.string_of_uint d).
    split; [reflexivity|]. split; [vm_compute; lia | apply string_of_uint_head].
  - eexists; exists (NilEmpty.string_of_uint d).
    split; [reflexivity|]. split; [vm_compute; lia | apply string_of_uint_head].
  - eexists; exists (NilEmpty.string_of_uint d).
    split; [reflexivity|]. split; [vm_compute; lia | apply string_of_uint_head].
  - eexists; exists (NilEmpty.string_of_uint d).
    split; [reflexivity|]. split; [vm_compute; lia | apply string_of_uint_head].
  - eexists; exists (NilEmpty.string_of_uint d).
    split; [reflexivity|]. split; [vm_compute; lia | apply string_of_uint_head].
Qed.

(** A string that starts with a character above [y] is not below a string
    that starts with [y]. *)
Lemma str_lt_head_above x a y b :
  nat_of_ascii y < nat_of_ascii x -> str_lt (String x a) (String y b) = false.
Proof.
  intros H. cbn [str_lt].
  destruct (Nat.ltb_spec (nat_of_ascii x) (nat_of_ascii y)); [lia|].
  destruct (Nat.ltb_spec (nat_of_ascii y) (nat_of_ascii x)); [reflexivity | lia].
Qed.

Lemma str_lt_head_equal x a b :
  str_lt (String x a) (String x b) = str_lt a b.
Proof. cbn [str_lt]. rewrite Nat.ltb_irrefl. reflexivity. Qed.

(** Comparing the decimal string of a non-negative number, followed by
    [s], with "0" followed by [t]: if the number is 0 the comparison goes on
    with [s] and [t]; otherwise the string starts above '0' and is not
    below. *)
Lemma str_lt_nonneg_zero z s t :
  (0 <= z)%Z ->
  str_lt (str_of_int z ++ s) (String "0" t) =
    if (z =? 0)%Z then str_lt s t else false.
Proof.
  intros Hz. destruct z as [|p|p]; [| |lia].
  - change (str_of_int 0) with "0". cbn [append].
    rewrite str_lt_head_equal. reflexivity.
  - destruct (str_of_int_pos_head p) as [c [rest [E [Hc _]]]].
    rewrite E. cbn [append]. simpl Z.eqb.
    apply str_lt_head_above. change (nat_of_ascii "0") with 48. lia.
Qed.

(** Against the minimum "1.0.0", a version with non-negative components is
    lexically below exactly when its major number is 0. *)
Lemma str_lt_minimum v :
  (0 <= Major v)%Z -> (0 <= Minor v)%Z -> (0 <= Build v)%Z ->
  str_lt (version_str_of v) "1.0.0" = (Major v =? 0)%Z.
Proof.
  intros HM Hm Hb. unfold version_str_of.
  destruct (Major v) as [|p|p] eqn:EM; [| |lia].
  - reflexivity.
  - simpl Z.eqb.
    destruct (str_of_int_pos_head p) as [c [rest [E [Hc Hrest]]]].
    rewrite E. cbn [append str_lt]. change (nat_of_ascii "1") with 49.
    destruct (Nat.ltb_spec (nat_of_ascii c) 49); [lia|].
    destruct (Nat.ltb_spec 49 (nat_of_ascii c)); [reflexivity|].
    destruct Hrest as [-> | [c' [r [-> Hc']]]].
    + cbn [append]. rewrite str_lt_head_equal.
      rewrite (str_lt_nonneg_zero (Minor v) _ ".0" Hm).
      destruct (Minor v =? 0)%Z; [|reflexivity].
      rewrite str_lt_head_equal.
      rewrite <- (append_empty_r (str_of_int (Build v))) at 1.
      rewrite (str_lt_nonneg_zero (Build v) "" "" Hb).
      destruct (Build v =? 0)%Z; reflexivity.
    + cbn [append]. apply str_lt_head_above.
      change (nat_of_ascii ".") with 46. lia.
Qed.

(** Each single-digit number prints as one character, its digit. *)
Lemma str_of_int_digit z :
  (0 <= z <= 9)%Z ->
  exists c, str_of_int z = String c "" /\
            Z.of_nat (nat_of_ascii c) = (48 + z)%Z.
Proof.
  intros H.
  assert (z = 0 \/ z = 1 \/ z = 2 \/ z = 3 \/ z = 4 \/ z = 5 \/ z = 6 \/
          z = 7 \/ z = 8 \/ z = 9)%Z as Hz by lia.
  repeat (destruct Hz as [-> | Hz]); try subst z;
    eexists; split; reflexivity.
Qed.

(** On single-digit components the lexical comparison of the formatted
    strings is the numeric comparison of the versions. *)
Lemma str_lt_single_digit a b :
  single_digit a -> single_digit b ->
  str_lt (version_str_of a) (version_str_of b) = version_lt_numeric a b.
Proof.
  intros (HaM & Ham & Hab) (HbM & Hbm & Hbb).
  unfold version_str_of, version_lt_numeric.
  destruct (str_of_int_digit _ HaM) as [c1 [-> E1]].
  destruct (str_of_int_digit _ Ham) as [c2 [-> E2]].
  destruct (str_of_int_digit _ Hab) as [c3 [-> E3]].
  destruct (str_of_int_digit _ HbM) as [d1 [-> F1]].
  destruct (str_of_int_digit _ Hbm) as [d2 [-> F2]].
  destruct (str_of_int_digit _ Hbb) as [d3 [-> F3]].
  cbn [append str_lt]. rewrite !Nat.ltb_irrefl.
  repeat match goal with
  | |- context [(?x <? ?y)%nat] => destruct (Nat.ltb_spec x y)
  end;
  repeat match goal with
  | |- context [(?x <? ?y)%Z] => destruct (Z.ltb_spec x y)
  | |- context [(?x =? ?y)%Z] => destruct (Z.eqb_spec x y)
  end; simpl; try reflexivity; lia.
Qed.

(** [check_sdk_version] gives [None] or a formatted version, whenever it
    returns. *)
Lemma check_sdk_version_result (world : oracle) required tr x :
  fst (check_sdk_version world required tr) = Normal x ->
  x = PyNone \/ exists v, x = PyStr (version_str_of v).
Proof.
  unfold check_sdk_version, function, try_except, version_check_body,
    version_check_handler, bind, ext, log, raise, ret, return_.
  destruct (world unit tr ImportSystem) as [[]|e0]; [|discriminate].
  destruct (world unit _ GetAssembly) as [[]|e1].
  - destruct (world Version _ AssemblyVersion) as [v|e2].
    + destruct (str_lt (version_str_of v) required); simpl;
        intros H; inversion H; [left | right; exists v]; reflexivity.
    + destruct (is_Exception e2); simpl; intros H; inversion H.
      left; reflexivity.
  - destruct (is_Exception e1); simpl; intros H; inversion H.
    left; reflexivity.
Qed.

(** X9. The minimum itself passes: when the assembly reports a version
    whose formatted string is the required one, [check_sdk_version] returns
    it, without any error record. *)
Theorem required_version_itself_accepted (world : oracle) tr v :
  reports world tr v ->
  check_sdk_version world (version_str_of v) tr =
    (Normal (PyStr (version_str_of v)), (tr ++ reflection_events v)%list).
Proof.
  intros Hrep. apply check_sdk_version_accepts; [exact Hrep|].
  apply str_lt_irrefl.
Qed.

(** X10. As long as every component of the reported and of the required
    version is a single digit, the lexical test of [check_sdk_version]
    decides as a numeric comparison would: it logs the failure and returns
    [None] exactly for the numerically lower versions, and returns the
    version string for the others. *)
Theorem single_digit_versions_compare_numerically (world : oracle) tr v minimum :
  reports world tr v ->
  single_digit v -> single_digit minimum ->
  check_sdk_version world (version_str_of minimum) tr =
    if version_lt_numeric v minimum
    then (Normal PyNone,
          (tr ++ reflection_events v
              ++ [version_check_failed
                    (mkExn PlainException
                       (below_required v (version_str_of minimum)))])%list)
    else (Normal (PyStr (version_str_of v)), (tr ++ reflection_events v)%list).
Proof.
  intros Hrep Hv Hm.
  rewrite <- (str_lt_single_digit v minimum Hv Hm).
  destruct (str_lt (version_str_of v) (version_str_of minimum)) eqn:Hlt.
  - apply check_sdk_version_below; assumption.
  - apply check_sdk_version_accepts; assumption.
Qed.

(** X11. Against the minimum the script uses, "1.0.0", the lexical test is
    right for every version with non-negative components, however many
    digits they have: the version is rejected exactly when its major number
    is 0. *)
Theorem minimum_1_0_0_rejects_major_zero (world : oracle) tr v :
  reports world tr v ->
  (0 <= Major v)%Z -> (0 <= Minor v)%Z -> (0 <= Build v)%Z ->
  str_lt (version_str_of v) "1.0.0" = version_lt_numeric v (mkVersion 1 0 0) /\
  check_sdk_version world "1.0.0" tr =
    if (Major v =? 0)%Z
    then (Normal PyNone,
          (tr ++ reflection_events v
              ++ [version_check_failed
                    (mkExn PlainException (below_required v "1.0.0"))])%list)
    else (Normal (PyStr (version_str_of v)), (tr ++ reflection_events v)%list).
Proof.
  intros Hrep HM Hm Hb.
  pose proof (str_lt_minimum v HM Hm Hb) as Hlt.
  split.
  - rewrite Hlt. unfold version_lt_numeric. simpl.
    destruct (Z.eqb_spec (Major v) 0) as [E|E].
    + rewrite E. reflexivity.
    + destruct (Z.ltb_spec (Major v) 1); [lia|].
      destruct (Z.ltb_spec (Minor v) 0); [lia|].
      destruct (Z.ltb_spec (Build v) 0); [lia|].
      simpl. rewrite !andb_false_r. reflexivity.
  - destruct (Major v =? 0)%Z.
    + apply check_sdk_version_below; assumption.
    + apply check_sdk_version_accepts; assumption.
Qed.

(** ** Module level, lines 69-78 *)

(** X12. The warning of the module level is logged exactly when
    [check_sdk_version] returned [None]: a returned version string is never
    empty, so it never counts as false; and an exception of the check is
    passed on without a warning. *)
Theorem version_warning_iff_none (world : oracle) tr :
  let checked := check_sdk_version world "1.0.0" tr in
  (fst checked = Normal PyNone ->
   module_version_check world tr =
     (Normal tt, (snd checked ++ [cannot_verify])%list)) /\
  (forall x, fst checked = Normal x -> x <> PyNone ->
   module_version_check world tr = (Normal tt, snd checked)) /\
  (forall e, fst checked = Raise e ->
   module_version_check world tr = (Raise e, snd checked)).
Proof.
  cbv zeta. unfold module_version_check, bind.
  pose proof (check_sdk_version_result world "1.0.0" tr) as Hres.
  destruct (check_sdk_version world "1.0.0" tr) as [[x|y|e] t]; simpl in *.
  - split; [|split].
    + intros H; inversion H; subst. reflexivity.
    + intros x' H Hx; inversion H; subst.
      destruct (Hres x' eq_refl) as [-> | [v ->]]; [congruence|].
      unfold truthy. rewrite version_str_of_nonempty. reflexivity.
    + discriminate.
  - split; [discriminate | split; discriminate].
  - split; [discriminate | split; [discriminate|]].
    intros e' H; inversion H; reflexivity.
Qed.

(** ** [load_sdk_dlls], lines 14-41 *)

(** X13. Once the folder exists, [load_sdk_dlls] is the sequence of its four
    references, added in the order of the source and stopped at the first
    one the runtime refuses.  When every [AddReference] comes back, the four
    references are recorded and the loader returns [None], and only then
    does it return.  When an [AddReference] raises while the ones before it
    came back, the loader ends with that exception, having recorded the
    references up to that one: no later DLL is tried. *)
Theorem load_sdk_dlls_stops_at_first_failure (world : oracle) os file p tr q tr1 :
  resolve_sdk_folder os file p tr = (Normal q, tr1) ->
  path_exists os q = true ->
  load_sdk_dlls world os file p tr =
    match run_sequence world tr1 (references_of os q) with
    | (None, t) => (Normal PyNone, t)
    | (Some e, t) => (Raise e, t)
    end
  /\
  (calls_succeed world tr1 (references_of os q) ->
   load_sdk_dlls world os file p tr =
     (Normal PyNone, (tr1 ++ references_of os q)%list))
  /\
  (forall v, fst (load_sdk_dlls world os file p tr) = Normal v ->
             calls_succeed world tr1 (references_of os q))
  /\
  (forall pre path post e,
     references_of os q = (pre ++ Ext (AddReference path) :: post)%list ->
     calls_succeed world tr1 pre ->
     world unit (tr1 ++ pre)%list (AddReference path) = Throws e ->
     load_sdk_dlls world os file p tr =
       (Raise e, (tr1 ++ pre ++ [Ext (AddReference path)])%list)).
Proof.
  intros Hres Hex.
  assert (Hrun : load_sdk_dlls world os file p tr =
                 match run_sequence world tr1 (references_of os q) with
                 | (None, t) => (Normal PyNone, t)
                 | (Some e, t) => (Raise e, t)
                 end).
  { unfold load_sdk_dlls, function, bind.
    rewrite Hres, Hex. cbv beta iota delta [negb ret].
    unfold ext, references_of. cbn [run_sequence thrown].
    repeat match goal with
    | |- context [world ?T ?t ?c] =>
        destruct (world T t c) as [[]|?e]; cbv beta iota; try reflexivity
    end. }
  split; [exact Hrun|]. split; [|split].
  - intros Hok. rewrite Hrun, (run_sequence_succeeds world _ _ Hok). reflexivity.
  - intros v Hv. rewrite Hrun in Hv.
    destruct (run_sequence world tr1 (references_of os q)) as [[e|] t] eqn:E;
      [discriminate|].
    exact (run_sequence_none world _ _ _ E).
  - intros pre path post e Heq Hok Hthrow.
    rewrite Hrun, Heq,
      (run_sequence_fails world pre tr1 unit (AddReference path) post e Hok Hthrow).
    reflexivity.
Qed.

(** X14. Loading from a relative folder is: log the warning, then do
    exactly what loading from the resolved folder does, provided the
    resolved folder is an absolute path. *)
Theorem load_relative_as_resolved (world : oracle) os file p tr :
  isabs os p = false ->
  isabs os (join os (dirname os file) p) = true ->
  load_sdk_dlls world os file p tr =
    load_sdk_dlls world os file (join os (dirname os file) p)
      (tr ++ [relative_warning p])%list.
Proof.
  intros Hrel Habs. unfold load_sdk_dlls, function, bind at 1.
  rewrite resolve_sdk_folder_run, Hrel.
  symmetry. unfold bind at 1.
  rewrite resolve_sdk_folder_run, Habs. reflexivity.
Qed.

(** ** The script as a whole *)

(** Once the runtime is loaded, the module level goes on with the loader. *)
Lemma module_load_run (world : oracle) os file tr :
  world unit tr (PythonnetLoad "coreclr") = Ok tt ->
  world unit (tr ++ [Ext (PythonnetLoad "coreclr")])%list ImportClr = Ok tt ->
  module_load world os file tr =
    bind (load_sdk_dlls world os file sdk_folder)
      (fun _ => ext world ImportA10x) (tr ++ runtime_events)%list.
Proof.
  intros Hload Hclr. unfold module_load, bind, ext.
  rewrite Hload. cbv beta iota. rewrite Hclr. cbv beta iota.
  replace ((tr ++ [Ext (PythonnetLoad "coreclr")]) ++ [Ext ImportClr])%list
    with (tr ++ runtime_events)%list
    by (unfold runtime_events; rewrite <- app_assoc; reflexivity).
  reflexivity.
Qed.

(** X15. A missing SDK folder stops the script where it stands: once the
    runtime is loaded and the resolved folder does not exist, the script ends
    with the [FileNotFoundError] of the loader right after the error record;
    the SDK is not imported, no version is checked and no device is
    called, whatever [__name__] is. *)
Theorem missing_folder_stops_script (world : oracle) os file name tr q tr1 :
  world unit tr (PythonnetLoad "coreclr") = Ok tt ->
  world unit (tr ++ [Ext (PythonnetLoad "coreclr")])%list ImportClr = Ok tt ->
  resolve_sdk_folder os file sdk_folder (tr ++ runtime_events)%list
    = (Normal q, tr1) ->
  path_exists os q = false ->
  script world os file name tr =
    (Raise (mkExn FileNotFoundError ("Dependencies directory not found: " ++ q)),
     (tr1 ++ [Log ERROR ("Dependencies directory does not exist: " ++ q)])%list)
  /\
  calls_of (snd (script world os file name tr)) =
    (calls_of tr ++ calls_of runtime_events)%list.
Proof.
  intros Hload Hclr Hres Hex.
  assert (Hs : script world os file name tr =
    (Raise (mkExn FileNotFoundError ("Dependencies directory not found: " ++ q)),
     (tr1 ++ [Log ERROR ("Dependencies directory does not exist: " ++ q)])%list)).
  { unfold script, bind at 1.
    rewrite (module_load_run world os file tr Hload Hclr). unfold bind at 1.
    rewrite (load_sdk_dlls_missing world os file sdk_folder _ q tr1 Hres Hex).
    reflexivity. }
  split; [exact Hs|]. rewrite Hs. simpl.
  rewrite resolve_sdk_folder_run in Hres.
  destruct (isabs os sdk_folder); inversion Hres; subst;
    rewrite !calls_of_app; simpl; rewrite ?app_nil_r; reflexivity.
Qed.

(** X16. The last record of the main block tells the truth about the run.
    When the block ends normally, either the whole sequence went through and
    the last record is the success message, or an error record was logged
    during the run and the last record is the failure message.  When
    [simple_example] raises, the exception leaves the block and neither
    message is logged. *)
Theorem main_block_outcome_record (world : oracle) tr :
  let started := (tr ++ [example_starting])%list in
  (forall t,
     main_block world "__main__" tr = (Normal tt, t) ->
     (exists info,
        t = (started ++ prelude_events info ++ body_events ++ cleanup_events
                     ++ [example_completed])%list)
     \/
     (exists before msg after,
        t = (started ++ before ++ Log ERROR msg :: after
                     ++ [example_failed])%list))
  /\
  (forall e,
     fst (simple_example world started) = Raise e ->
     main_block world "__main__" tr = (Raise e, snd (simple_example world started))).
Proof.
  cbv zeta.
  assert (Hmb : main_block world "__main__" tr =
                bind (simple_example world)
                  (fun success =>
                     if truthy success
                     then log INFO "Example completed successfully!"
                     else log ERROR "Example failed!")
                  (tr ++ [example_starting])%list).
  { unfold main_block. rewrite String.eqb_refl. reflexivity. }
  rewrite Hmb. clear Hmb. unfold bind.
  destruct (simple_example_outcomes world (tr ++ [example_starting])%list)
    as [[info H] | [[before [msg [after H]]] | [e H]]].
  - rewrite H. simpl. split; [|discriminate].
    intros t Ht. inversion Ht. left. exists info.
    unfold log, example_completed. rewrite <- ?app_assoc. reflexivity.
  - rewrite H. simpl. split; [|discriminate].
    intros t Ht. inversion Ht. right. exists before, msg, after.
    unfold log, example_failed. rewrite <- ?app_assoc. simpl.
    rewrite <- ?app_assoc. reflexivity.
  - destruct (simple_example world (tr ++ [example_starting])%list)
      as [[x|y|e'] t']; simpl in H; try discriminate.
    inversion H; subst. split; [discriminate|].
    intros e0 He0; inversion He0; reflexivity.
Qed.


(** ** The further properties at work *)

(** An interrupt during the sleep: ten events went through, the sleep is
    the last thing recorded, StopAcquisition is never called. *)
Lemma acquisition_body_stops_at_first_failure_witness :
  acquisition_body world_interrupted (prelude_events sample_info) =
    (Raise (mkExn KeyboardInterrupt ""),
     (prelude_events sample_info ++ firstn 10 body_events
        ++ [Ext (Sleep 5)])%list).
Proof.
  destruct (acquisition_body_stops_at_first_failure world_interrupted
              (prelude_events sample_info)) as [_ [_ [_ H]]].
  apply (H (firstn 10 body_events) unit (Sleep 5) (skipn 11 body_events)
           (mkExn KeyboardInterrupt ""));
    [reflexivity | simpl; repeat split | reflexivity].
Defined.

(** The whole example went through: the result is [True]. *)
Lemma true_only_after_full_sequence_witness :
  (PyBool true = PyBool true /\
   exists info,
     snd (simple_example sdk_1_2_3 []) =
       ([] ++ prelude_events info ++ body_events ++ cleanup_events)%list)
  \/
  (PyBool true = PyBool false /\
   exists before msg after,
     snd (simple_example sdk_1_2_3 []) =
       ([] ++ before ++ Log ERROR msg :: after)%list).
Proof.
  exact (true_only_after_full_sequence sdk_1_2_3 [] (PyBool true) eq_refl).
Defined.

(** Connect was attempted, so both gates were open. *)
Lemma connect_only_behind_gates_witness :
  exists info,
    sdk_1_2_3 bool [] (IdentifyDevice device_ip) = Ok true /\
    sdk_1_2_3 unit ([] ++ firstn 4 (prelude_events info))%list (GetAttr "SetGain")
      = Ok tt.
Proof.
  apply (connect_only_behind_gates sdk_1_2_3 []).
  vm_compute. discriminate.
Defined.

(** An interrupt during the five seconds of acquisition. *)
Lemma interrupt_passes_cleanup_witness :
  simple_example world_interrupted [] =
    (Raise (mkExn KeyboardInterrupt ""),
     ((prelude_events sample_info ++ firstn 11 body_events)
      ++ cleanup_events)%list).
Proof.
  destruct (interrupt_passes_cleanup world_interrupted []
              (prelude_events sample_info) (mkExn KeyboardInterrupt "")
              (prelude_events sample_info ++ firstn 11 body_events)%list
              eq_refl eq_refl eq_refl) as [H _].
  exact (H eq_refl).
Defined.

(** The identification call fails on the network. *)
Lemma prelude_exception_escapes_witness :
  simple_example world_identify_fails [] =
    (Raise (mkExn ClrException "Network unreachable"),
     snd (acquisition_prelude world_identify_fails [])) /\
  errors_of (snd (simple_example world_identify_fails [])) = errors_of [] /\
  count_calls is_connect (snd (simple_example world_identify_fails []))
    = count_calls is_connect [] /\
  count_calls is_disconnect (snd (simple_example world_identify_fails []))
    = count_calls is_disconnect [].
Proof.
  exact (prelude_exception_escapes world_identify_fails []
           (mkExn ClrException "Network unreachable") eq_refl).
Defined.

(** The assembly reports exactly the required 1.2.3. *)
Lemma required_version_itself_accepted_witness :
  check_sdk_version sdk_1_2_3 (version_str_of (mkVersion 1 2 3)) [] =
    (Normal (PyStr (version_str_of (mkVersion 1 2 3))),
     ([] ++ reflection_events (mkVersion 1 2 3))%list).
Proof.
  exact (required_version_itself_accepted sdk_1_2_3 [] (mkVersion 1 2 3)
           (happy_world_reports _ _)).
Defined.

Lemma single_digit_1_2_3 : single_digit (mkVersion 1 2 3).
Proof. unfold single_digit; simpl; lia. Defined.

Lemma single_digit_2_0_0 : single_digit (mkVersion 2 0 0).
Proof. unfold single_digit; simpl; lia. Defined.

(** 1.2.3 against the minimum 2.0.0. *)
Lemma single_digit_versions_compare_numerically_witness :
  check_sdk_version sdk_1_2_3 (version_str_of (mkVersion 2 0 0)) [] =
    if version_lt_numeric (mkVersion 1 2 3) (mkVersion 2 0 0)
    then (Normal PyNone,
          ([] ++ reflection_events (mkVersion 1 2 3)
              ++ [version_check_failed
                    (mkExn PlainException
                       (below_required (mkVersion 1 2 3)
                          (version_str_of (mkVersion 2 0 0))))])%list)
    else (Normal (PyStr (version_str_of (mkVersion 1 2 3))),
          ([] ++ reflection_events (mkVersion 1 2 3))%list).
Proof.
  exact (single_digit_versions_compare_numerically sdk_1_2_3 []
           (mkVersion 1 2 3) (mkVersion 2 0 0) (happy_world_reports _ _)
           single_digit_1_2_3 single_digit_2_0_0).
Defined.

(** 10.12.0 against the minimum of the script: accepted. *)
Lemma minimum_1_0_0_rejects_major_zero_witness :
  check_sdk_version (happy_world (mkVersion 10 12 0)) "1.0.0" [] =
    (Normal (PyStr "10.12.0"), ([] ++ reflection_events (mkVersion 10 12 0))%list).
Proof.
  destruct (minimum_1_0_0_rejects_major_zero (happy_world (mkVersion 10 12 0)) []
              (mkVersion 10 12 0) (happy_world_reports _ _)) as [_ H];
    [simpl; lia | simpl; lia | simpl; lia |].
  exact H.
Defined.

(** SDK 0.9.0: the check returns [None] and the warning follows. *)
Lemma version_warning_iff_none_witness :
  module_version_check world_old_sdk [] =
    (Normal tt,
     (snd (check_sdk_version world_old_sdk "1.0.0" []) ++ [cannot_verify])%list).
Proof.
  destruct (version_warning_iff_none world_old_sdk []) as [H _].
  exact (H eq_refl).
Defined.

(** The second DLL is refused: two references recorded, the rest not tried. *)
Lemma load_sdk_dlls_stops_at_first_failure_witness :
  load_sdk_dlls world_second_dll_fails fs_all script_file "/opt/a1052/sdk" [] =
    (Raise (mkExn ClrException "Could not load file or assembly"),
     ([] ++ firstn 1 (references_of fs_all "/opt/a1052/sdk")
         ++ [Ext (AddReference
                    "/opt/a1052/sdk/Microsoft.Extensions.Logging.Abstractions.dll")])%list).
Proof.
  destruct (load_sdk_dlls_stops_at_first_failure world_second_dll_fails fs_all
              script_file "/opt/a1052/sdk" [] "/opt/a1052/sdk" []
              eq_refl eq_refl) as [_ [_ [_ H]]].
  apply (H (firstn 1 (references_of fs_all "/opt/a1052/sdk"))
           "/opt/a1052/sdk/Microsoft.Extensions.Logging.Abstractions.dll"
           (skipn 2 (references_of fs_all "/opt/a1052/sdk"))
           (mkExn ClrException "Could not load file or assembly"));
    [reflexivity | simpl; repeat split | reflexivity].
Defined.

(** The relative folder of the script, resolved next to the script file. *)
Lemma load_relative_as_resolved_witness :
  load_sdk_dlls sdk_1_2_3 fs_all script_file sdk_folder [] =
    load_sdk_dlls sdk_1_2_3 fs_all script_file
      (join fs_all (dirname fs_all script_file) sdk_folder)
      ([] ++ [relative_warning sdk_folder])%list.
Proof.
  exact (load_relative_as_resolved sdk_1_2_3 fs_all script_file sdk_folder []
           eq_refl eq_refl).
Defined.

(** The script on a machine without the SDK folder. *)
Lemma missing_folder_stops_script_witness :
  script sdk_1_2_3 fs_none script_file "__main__" [] =
    (Raise (mkExn FileNotFoundError
              "Dependencies directory not found: /opt/a1052/PythonExample/..\sdk"),
     ((runtime_events ++ [relative_warning sdk_folder])
      ++ [Log ERROR
            "Dependencies directory does not exist: /opt/a1052/PythonExample/..\sdk"])%list)
  /\
  calls_of (snd (script sdk_1_2_3 fs_none script_file "__main__" [])) =
    (calls_of [] ++ calls_of runtime_events)%list.
Proof.
  exact (missing_folder_stops_script sdk_1_2_3 fs_none script_file "__main__" []
           "/opt/a1052/PythonExample/..\sdk"
           (runtime_events ++ [relative_warning sdk_folder])%list
           eq_refl eq_refl eq_refl eq_refl).
Defined.

(** The main block when the connection is refused: the failure message. *)
Lemma main_block_outcome_record_witness :
  (exists info,
     snd (main_block world_connect_fails "__main__" []) =
       (([] ++ [example_starting]) ++ prelude_events info ++ body_events
          ++ cleanup_events ++ [example_completed])%list)
  \/
  (exists before msg after,
     snd (main_block world_connect_fails "__main__" []) =
       (([] ++ [example_starting]) ++ before ++ Log ERROR msg :: after
          ++ [example_failed])%list).
Proof.
  destruct (main_block_outcome_record world_connect_fails []) as [H _].
  exact (H (snd (main_block world_connect_fails "__main__" [])) eq_refl).
Defined.

